(** * A shallow embedding of the OWID Grapher map scanner

    This development models [src/owid_map_scanner_mcp.py]: the JSON
    configuration parser ([parse_chart_config], [parse_config_for_map_info]),
    the memoised year extractor with its on-disk CSV cache
    ([fetch_chart_data_years], [fetch_csv_data]), the dimension fallback
    ([try_with_dimensions]), the classifier ([generate_chart_result]), the
    paginated inventory fetcher ([fetch_map_charts_from_sql]) and the
    published-subset report ([save_results]).

    Python [str] values are modelled as [list ascii]; JSON values decoded
    by [json.loads] as the inductive [json]. *)

From Stdlib Require Import List Bool ZArith Ascii String Lia Permutation.
Import ListNotations.
Open Scope bool_scope.

(** ** Python strings *)

Definition str := list ascii.

(** String literals of the development, written as Rocq strings. *)
Definition lit (x : string) : str := list_ascii_of_string x.

Definition ch_dq : ascii := "034"%char.
Definition ch_nl : ascii := "010"%char.
Definition ch_comma : ascii := ","%char.
Definition ch_minus : ascii := "-"%char.
Definition ch_cr : ascii := "013"%char.

Definition str_eqb (a b : str) : bool :=
  if list_eq_dec ascii_dec a b then true else false.

(** [str.isspace] on one character (the ASCII part of Python's table). *)
Definition is_space (c : ascii) : bool :=
  let n := nat_of_ascii c in
  ((9 <=? n) && (n <=? 13)) || ((28 <=? n) && (n <=? 32))%nat.

Fixpoint lstrip (s : str) : str :=
  match s with
  | [] => []
  | c :: r => if is_space c then lstrip r else s
  end.

Definition rstrip (s : str) : str := rev (lstrip (rev s)).

(** [str.strip()] with no argument. *)
Definition strip (s : str) : str := rstrip (lstrip s).

(** [s.split(sep)] for a one-character separator. *)
Fixpoint split_on (sep : ascii) (s : str) : list str :=
  match s with
  | [] => [[]]
  | c :: r =>
      if Ascii.eqb c sep then [] :: split_on sep r
      else match split_on sep r with
           | h :: t => (c :: h) :: t
           | [] => [[c]]
           end
  end.

Definition lower_ascii (c : ascii) : ascii :=
  let n := nat_of_ascii c in
  if ((65 <=? n) && (n <=? 90))%nat then ascii_of_nat (n + 32) else c.

(** [str.lower()] *)
Definition lower (s : str) : str := map lower_ascii s.

(** [s.replace(dq dq, dq)] where [dq] is the double-quote character:
    non-overlapping, left to right. *)
Fixpoint replace_dq (s : str) : str :=
  match s with
  | a :: ((b :: r) as t) =>
      if Ascii.eqb a ch_dq && Ascii.eqb b ch_dq then a :: replace_dq r
      else a :: replace_dq t
  | _ => s
  end.

Fixpoint str_join (sep : ascii) (l : list str) : str :=
  match l with
  | [] => []
  | [x] => x
  | x :: r => x ++ sep :: str_join sep r
  end.

(** ** Python [float] values: IEEE 754 binary64

    [PFin m k] is the finite double [m * 2^k]; the sign of a zero plays no
    part below. A decimal literal is converted with round-half-to-even,
    as [float(s)] and [json.loads] do: literals beyond the double range give
    an infinity, those below half the least subnormal give zero. *)

Inductive pyfloat : Type :=
| PFin (m : Z) (k : Z)
| PInf (neg : bool)
| PNaN.

(** The integer nearest to [p / (q * 2^k)], ties to even, for [0 <= p] and
    [0 < q]. *)
Definition round_ne (p q k : Z) : Z :=
  let num := if (0 <=? k)%Z then p else (p * 2 ^ (- k))%Z in
  let den := if (0 <=? k)%Z then (q * 2 ^ k)%Z else q in
  let d := (num / den)%Z in
  let r := (num mod den)%Z in
  if (den <? 2 * r)%Z then (d + 1)%Z
  else if (2 * r <? den)%Z then d
  else if Z.even d then d else (d + 1)%Z.

(** [floor (log2 (p / q))] for [0 < p] and [0 < q]. *)
Definition log2_ratio (p q : Z) : Z :=
  let t := (Z.log2 p - Z.log2 q)%Z in
  if (if (0 <=? t)%Z then (q * 2 ^ t <=? p)%Z else (q <=? p * 2 ^ (- t))%Z)
  then t else (t - 1)%Z.

(** The double nearest to [p / q > 0], negated when [neg]: 53 significant
    bits, exponents down to the subnormal [2^-1074], infinity from [2^1024]
    on. *)
Definition double_of_ratio (neg : bool) (p q : Z) : pyfloat :=
  let k := Z.max (log2_ratio p q - 52) (-1074) in
  let sig := round_ne p q k in
  if (1024 <=? Z.log2 sig + k)%Z then PInf neg
  else PFin (if neg then Z.opp sig else sig) k.

(** The double nearest to the decimal [m * 10^e], [0 <= m], negated when
    [neg]. The first tests settle literals whose exponent is out of reach:
    from [10^310] on the value overflows, and below [2^-1075] it rounds to
    zero ([10^e <= 2^(3e)] for [e <= 0]). *)
Definition double_of_decimal (neg : bool) (m e : Z) : pyfloat :=
  if (m =? 0)%Z then PFin 0 0
  else if (309 <? e)%Z then PInf neg
  else if (Z.log2 m + 1 + 3 * e <=? -1075)%Z then PFin 0 0
  else if (0 <=? e)%Z then double_of_ratio neg (m * 10 ^ e) 1
  else double_of_ratio neg m (10 ^ (- e)).

(** ** JSON values as returned by [json.loads]

    [JFloat f] is a Python [float]: a literal with a fraction or an
    exponent, or one of the constants [NaN], [Infinity] and [-Infinity].
    Objects keep their members in order, duplicates included; a Python
    [dict] built from them keeps the last value of a key. *)

#[local] Set Warnings "-register-all".
Inductive json : Type :=
| JNull
| JBool (b : bool)
| JInt (z : Z)
| JFloat (f : pyfloat)
| JStr (s : str)
| JArr (l : list json)
| JObj (kvs : list (str * json)).

(** [d.get(k)] as an option: the last member with key [k]. *)
Definition obj_lookup (kvs : list (str * json)) (k : str) : option json :=
  fold_left (fun acc kv => if str_eqb k (fst kv) then Some (snd kv) else acc)
    kvs None.

(** [d.get(k)]: Python's [None] and JSON's [null] are the same value. *)
Definition obj_get (kvs : list (str * json)) (k : str) : json :=
  match obj_lookup kvs k with Some v => v | None => JNull end.

Definition obj_has (kvs : list (str * json)) (k : str) : bool :=
  match obj_lookup kvs k with Some _ => true | None => false end.

(** Python truthiness ([bool(v)]). *)
Definition truthy (v : json) : bool :=
  match v with
  | JNull => false
  | JBool b => b
  | JInt z => negb (Z.eqb z 0)
  | JFloat (PFin m _) => negb (Z.eqb m 0)
  | JFloat _ => true
  | JStr s => match s with [] => false | _ => true end
  | JArr l => match l with [] => false | _ => true end
  | JObj kvs => match kvs with [] => false | _ => true end
  end.

(** [a or b] *)
Definition py_or (a b : json) : json := if truthy a then a else b.

(** [v == "..."] against a string literal. *)
Definition json_is_str (v : json) (s : str) : bool :=
  match v with JStr t => str_eqb t s | _ => false end.

(** ** [json.loads]

    A recursive-descent decoder for RFC 8259 text over ASCII, with Python's
    rules: whitespace is space, tab, line feed and carriage return; an
    integer literal decodes to [int], one with a fraction or exponent to
    [float], and the constants [NaN], [Infinity] and [-Infinity] are
    accepted; trailing text after the value is an error. A [\u] escape
    with four hexadecimal digits is accepted: it is decoded when it names an
    ASCII code point, and a code point from 128 on, outside the
    [list ascii] model, is kept as the six characters of the escape, so
    that decoding succeeds exactly when Python's does. Two limits of the
    interpreter are not modelled: the digit limit of [int] since Python
    3.11, and the [RecursionError] of a nesting deeper than the recursion
    limit. The fuel
    [2 * length s + 2] covers every nesting, since every second call
    consumes a character. *)

Definition is_json_ws (c : ascii) : bool :=
  let n := nat_of_ascii c in
  (n =? 32) || (n =? 9) || (n =? 10) || (n =? 13).

Fixpoint skip_ws (s : str) : str :=
  match s with
  | c :: r => if is_json_ws c then skip_ws r else s
  | [] => []
  end.

Fixpoint strip_prefix (p s : str) : option str :=
  match p, s with
  | [], _ => Some s
  | a :: p', b :: s' => if Ascii.eqb a b then strip_prefix p' s' else None
  | _ :: _, [] => None
  end.

Definition is_digit (c : ascii) : bool :=
  let n := nat_of_ascii c in (48 <=? n) && (n <=? 57).

Definition digit_val (c : ascii) : Z := Z.of_nat (nat_of_ascii c - 48).

Fixpoint take_digits (s : str) : list ascii * str :=
  match s with
  | c :: r =>
      if is_digit c then let '(ds, r') := take_digits r in (c :: ds, r')
      else ([], s)
  | [] => ([], [])
  end.

Definition digits_Z (ds : list ascii) : Z :=
  fold_left (fun acc d => acc * 10 + digit_val d)%Z ds 0%Z.

(** The number grammar: [-? (0 | [1-9][0-9]* ) (. [0-9]+)? ([eE] [+-]? [0-9]+)?]. *)
Definition pnumber (s : str) : option (json * str) :=
  let '(neg, s1) := match s with
                    | c :: r => if Ascii.eqb c "-" then (true, r) else (false, s)
                    | [] => (false, s)
                    end in
  let int_part :=
    match s1 with
    | c :: r =>
        if Ascii.eqb c "0" then Some ([c], r)
        else if is_digit c then let '(ds, r') := take_digits r in Some (c :: ds, r')
        else None
    | [] => None
    end in
  match int_part with
  | None => None
  | Some (ids, s2) =>
      let frac :=
        match s2 with
        | c :: r =>
            if Ascii.eqb c "." then
              match take_digits r with
              | ([], _) => None
              | (fds, r') => Some (Some fds, r')
              end
            else Some (None, s2)
        | [] => Some (None, s2)
        end in
      match frac with
      | None => None
      | Some (ofds, s3) =>
          let expo :=
            match s3 with
            | c :: r =>
                if Ascii.eqb c "e" || Ascii.eqb c "E" then
                  let '(eneg, r1) :=
                    match r with
                    | d :: r' =>
                        if Ascii.eqb d "-" then (true, r')
                        else if Ascii.eqb d "+" then (false, r') else (false, r)
                    | [] => (false, r)
                    end in
                  match take_digits r1 with
                  | ([], _) => None
                  | (eds, r2) =>
                      Some (Some (if eneg then Z.opp (digits_Z eds) else digits_Z eds), r2)
                  end
                else Some (None, s3)
            | [] => Some (None, s3)
            end in
          match expo with
          | None => None
          | Some (oe, s4) =>
              let sgn (z : Z) := if neg then Z.opp z else z in
              match ofds, oe with
              | None, None => Some (JInt (sgn (digits_Z ids)), s4)
              | _, _ =>
                  let fds := match ofds with Some f => f | None => [] end in
                  let e := match oe with Some e => e | None => 0%Z end in
                  Some (JFloat (double_of_decimal neg (digits_Z (ids ++ fds))
                                  (e - Z.of_nat (List.length fds))%Z), s4)
              end
          end
      end
  end.

Definition hex_val (c : ascii) : option nat :=
  let n := nat_of_ascii c in
  if (48 <=? n) && (n <=? 57) then Some (n - 48)
  else if (97 <=? n) && (n <=? 102) then Some (n - 87)
  else if (65 <=? n) && (n <=? 70) then Some (n - 55)
  else None.

(** The body of a string literal, after its opening quote. *)
Fixpoint pstring (s : str) (acc : list ascii) : option (str * str) :=
  match s with
  | [] => None
  | c :: r =>
      if Ascii.eqb c ch_dq then Some (rev acc, r)
      else if Ascii.eqb c "\" then
        match r with
        | e :: r' =>
            if Ascii.eqb e ch_dq then pstring r' (ch_dq :: acc)
            else if Ascii.eqb e "\" then pstring r' ("\"%char :: acc)
            else if Ascii.eqb e "/" then pstring r' ("/"%char :: acc)
            else if Ascii.eqb e "b" then pstring r' ("008"%char :: acc)
            else if Ascii.eqb e "f" then pstring r' ("012"%char :: acc)
            else if Ascii.eqb e "n" then pstring r' (ch_nl :: acc)
            else if Ascii.eqb e "r" then pstring r' ("013"%char :: acc)
            else if Ascii.eqb e "t" then pstring r' ("009"%char :: acc)
            else if Ascii.eqb e "u" then
              match r' with
              | h1 :: h2 :: h3 :: h4 :: r'' =>
                  match hex_val h1, hex_val h2, hex_val h3, hex_val h4 with
                  | Some a, Some b, Some c', Some d =>
                      let n := ((a * 16 + b) * 16 + c') * 16 + d in
                      if n <? 128 then pstring r'' (ascii_of_nat n :: acc)
                      else pstring r'' (h4 :: h3 :: h2 :: h1 :: "u"%char :: "\"%char :: acc)
                  | _, _, _, _ => None
                  end
              | _ => None
              end
            else None
        | [] => None
        end
      else if nat_of_ascii c <? 32 then None
      else pstring r (c :: acc)
  end.

Fixpoint pvalue (fuel : nat) (s : str) {struct fuel} : option (json * str) :=
  match fuel with
  | O => None
  | S f =>
      match skip_ws s with
      | [] => None
      | c :: r =>
          if Ascii.eqb c "{" then pobj f r
          else if Ascii.eqb c "[" then parr f r
          else if Ascii.eqb c ch_dq then
            match pstring r [] with
            | Some (t, r') => Some (JStr t, r')
            | None => None
            end
          else match strip_prefix (lit "null") (c :: r) with
          | Some r' => Some (JNull, r')
          | None =>
          match strip_prefix (lit "true") (c :: r) with
          | Some r' => Some (JBool true, r')
          | None =>
          match strip_prefix (lit "false") (c :: r) with
          | Some r' => Some (JBool false, r')
          | None =>
          match pnumber (c :: r) with
          | Some res => Some res
          | None =>
          match strip_prefix (lit "NaN") (c :: r) with
          | Some r' => Some (JFloat PNaN, r')
          | None =>
          match strip_prefix (lit "Infinity") (c :: r) with
          | Some r' => Some (JFloat (PInf false), r')
          | None =>
          match strip_prefix (lit "-Infinity") (c :: r) with
          | Some r' => Some (JFloat (PInf true), r')
          | None => None
          end end end end end end end
      end
  end
with parr (fuel : nat) (s : str) {struct fuel} : option (json * str) :=
  match fuel with
  | O => None
  | S f =>
      match skip_ws s with
      | c :: r => if Ascii.eqb c "]" then Some (JArr [], r) else parr_items f (c :: r) []
      | [] => None
      end
  end
with parr_items (fuel : nat) (s : str) (acc : list json) {struct fuel}
  : option (json * str) :=
  match fuel with
  | O => None
  | S f =>
      match pvalue f s with
      | None => None
      | Some (v, r) =>
          match skip_ws r with
          | c :: r' =>
              if Ascii.eqb c "," then parr_items f r' (v :: acc)
              else if Ascii.eqb c "]" then Some (JArr (rev (v :: acc)), r')
              else None
          | [] => None
          end
      end
  end
with pobj (fuel : nat) (s : str) {struct fuel} : option (json * str) :=
  match fuel with
  | O => None
  | S f =>
      match skip_ws s with
      | c :: r => if Ascii.eqb c "}" then Some (JObj [], r) else pobj_items f (c :: r) []
      | [] => None
      end
  end
with pobj_items (fuel : nat) (s : str) (acc : list (str * json)) {struct fuel}
  : option (json * str) :=
  match fuel with
  | O => None
  | S f =>
      match skip_ws s with
      | q :: r =>
          if Ascii.eqb q ch_dq then
            match pstring r [] with
            | None => None
            | Some (k, r1) =>
                match skip_ws r1 with
                | col :: r2 =>
                    if Ascii.eqb col ":" then
                      match pvalue f r2 with
                      | None => None
                      | Some (v, r3) =>
                          match skip_ws r3 with
                          | c :: r4 =>
                              if Ascii.eqb c "," then pobj_items f r4 ((k, v) :: acc)
                              else if Ascii.eqb c "}" then Some (JObj (rev ((k, v) :: acc)), r4)
                              else None
                          | [] => None
                          end
                      end
                    else None
                | [] => None
                end
            end
          else None
      | [] => None
      end
  end.

(** [json.loads(s)]; [None] is the [JSONDecodeError] it raises. *)
Definition json_loads (s : str) : option json :=
  match pvalue (2 * List.length s + 2) s with
  | Some (v, r) => match skip_ws r with [] => Some v | _ => None end
  | None => None
  end.

(** [parse_chart_config(config_str)] (lines 154-158). [None] is an
    exception propagating to the caller: the second [json.loads] is outside
    the [try]. *)
Definition parse_chart_config (config_str : str) : option json :=
  match json_loads (replace_dq config_str) with
  | Some v => Some v
  | None => json_loads config_str
  end.

(** The same call on a value that is not a [str]: [.replace] raises an
    [AttributeError], caught, and [json.loads] then raises a [TypeError]. *)
Definition parse_chart_config_py (v : json) : option json :=
  match v with JStr s => parse_chart_config s | _ => None end.

(** ** [parse_config_for_map_info] (lines 189-232)

    Fields holding a Python value use [json], with [JNull] for [None]. *)

Record map_info : Type := {
  has_map_tab : bool;
  default_tab : json;
  map_column_slug : json;
  map_time : json;
  has_timeline : bool;
  entity_type : json;
  max_time : json;
  min_time : json
}.

(** [None] is the [AttributeError] of [.get] on a value that is not a
    [dict]: the configuration itself, or its ["map"] member. *)
Definition parse_config_for_map_info (config : json) : option map_info :=
  match config with
  | JObj kvs =>
      let timelineMaxTime :=
        py_or (obj_get kvs (lit "timelineMaxTime")) (obj_get kvs (lit "MaxTime")) in
      let timelineMinTime :=
        py_or (obj_get kvs (lit "timelineMinTime")) (obj_get kvs (lit "MinTime")) in
      let has_map1 := truthy (obj_get kvs (lit "hasMapTab")) in
      let tab_is_map := json_is_str (obj_get kvs (lit "tab")) (lit "map") in
      let has_map2 := if tab_is_map then true else has_map1 in
      let default_tab := if tab_is_map then JStr (lit "map") else JNull in
      let map_part :=
        if obj_has kvs (lit "map") then
          match obj_get kvs (lit "map") with
          | JObj m =>
              Some (obj_get m (lit "columnSlug"), obj_get m (lit "time"),
                    if truthy (obj_get m (lit "hideTimeline")) then false else true)
          | _ => None
          end
        else Some (JNull, JNull, true) in
      match map_part with
      | None => None
      | Some (col, tm, tl) =>
          Some {| has_map_tab := has_map2;
                  default_tab := default_tab;
                  map_column_slug := col;
                  map_time := tm;
                  has_timeline := tl;
                  entity_type := obj_get kvs (lit "entityType");
                  max_time := timelineMaxTime;
                  min_time := timelineMinTime |}
      end
  | _ => None
  end.

(** ** Python's [float(s)] and [int(x)] on the year token

    [float] strips whitespace, takes an optional sign, then either
    [inf]/[infinity]/[nan] in any case or a decimal literal whose digit
    groups may be separated by single underscores, rounded to the nearest
    double. *)

Fixpoint digitpart_rest (s : str) : list ascii * str :=
  match s with
  | c :: r =>
      if is_digit c then let '(ds, r') := digitpart_rest r in (c :: ds, r')
      else if Ascii.eqb c "_" then
        match r with
        | d :: r2 =>
            if is_digit d then let '(ds, r') := digitpart_rest r2 in (d :: ds, r')
            else ([], s)
        | [] => ([], s)
        end
      else ([], s)
  | [] => ([], [])
  end.

Definition digitpart (s : str) : option (list ascii * str) :=
  match s with
  | c :: r =>
      if is_digit c then let '(ds, r') := digitpart_rest r in Some (c :: ds, r')
      else None
  | [] => None
  end.

Definition take_sign (s : str) : bool * str :=
  match s with
  | c :: r =>
      if Ascii.eqb c "-" then (true, r)
      else if Ascii.eqb c "+" then (false, r) else (false, s)
  | [] => (false, s)
  end.

(** The decimal literal: [(digits (. digits?)? | . digits) ([eE] sign? digits)?]. *)
Definition py_decimal (b : str) : option (list ascii * list ascii * Z) :=
  let mant :=
    match digitpart b with
    | Some (ids, r) =>
        match r with
        | c :: r' =>
            if Ascii.eqb c "." then
              match digitpart r' with
              | Some (fds, r'') => Some (ids, fds, r'')
              | None => Some (ids, [], r')
              end
            else Some (ids, [], r)
        | [] => Some (ids, [], r)
        end
    | None =>
        match b with
        | c :: r' =>
            if Ascii.eqb c "." then
              match digitpart r' with
              | Some (fds, r'') => Some ([], fds, r'')
              | None => None
              end
            else None
        | [] => None
        end
    end in
  match mant with
  | None => None
  | Some (ids, fds, r) =>
      let expo :=
        match r with
        | c :: r' =>
            if Ascii.eqb c "e" || Ascii.eqb c "E" then
              let '(eneg, r1) := take_sign r' in
              match digitpart r1 with
              | Some (eds, r2) =>
                  Some ((if eneg then Z.opp (digits_Z eds) else digits_Z eds), r2)
              | None => None
              end
            else Some (0%Z, r)
        | [] => Some (0%Z, r)
        end in
      match expo with
      | Some (e, []) => Some (ids, fds, e)
      | _ => None
      end
  end.

(** [float(s)]; [None] is the [ValueError] it raises. *)
Definition py_float (s : str) : option pyfloat :=
  let '(neg, b) := take_sign (strip s) in
  let lb := lower b in
  if str_eqb lb (lit "inf") || str_eqb lb (lit "infinity") then Some (PInf neg)
  else if str_eqb lb (lit "nan") then Some PNaN
  else match py_decimal b with
       | Some (ids, fds, e) =>
           Some (double_of_decimal neg (digits_Z (ids ++ fds))
                   (e - Z.of_nat (List.length fds)))
       | None => None
       end.

(** How one data cell fares in [fetch_chart_data_years]: a year, a line
    skipped by [except (ValueError, IndexError)], or an exception that the
    clause does not catch ([OverflowError] of [int(inf)]). *)
Inductive cell_outcome : Type :=
| CYear (y : Z)
| CSkip
| CRaise.

(** [int(f)] truncates toward zero; it raises a [ValueError] on [nan]. *)
Definition py_int_of_float (f : pyfloat) : cell_outcome :=
  match f with
  | PFin m k => if (0 <=? k)%Z then CYear (m * 2 ^ k)%Z else CYear (Z.quot m (2 ^ (- k)))
  | PInf _ => CRaise
  | PNaN => CSkip
  end.

(** [split_date(y)] on a [str] (lines 34-37): [y.split("-")[0]]. *)
Definition split_date_str (y : str) : str := hd [] (split_on ch_minus y).

(** [year_str = split_date(cell.strip()); year = int(float(year_str))]. *)
Definition year_of_cell (cell : str) : cell_outcome :=
  match py_float (split_date_str (strip cell)) with
  | Some f => py_int_of_float f
  | None => CSkip
  end.

(** ** Parsing a CSV export into years (lines 245-273)

    A Python [set] of [int] is a duplicate-free [list Z]; its order plays no
    part in any use below. *)

Definition add_year (y : Z) (ys : list Z) : list Z :=
  if existsb (Z.eqb y) ys then ys else ys ++ [y].

Definition is_year_header (h : str) : bool :=
  let k := lower (strip h) in
  str_eqb k (lit "year") || str_eqb k (lit "time") || str_eqb k (lit "date").

(** The [for i, h in enumerate(headers)] search, stopping at the first hit. *)
Fixpoint find_year_col_from (i : nat) (headers : list str) : option nat :=
  match headers with
  | [] => None
  | h :: r => if is_year_header h then Some i else find_year_col_from (S i) r
  end.

Definition year_col_index (headers : list str) : nat :=
  match find_year_col_from 0 headers with
  | Some i => i
  | None => 2
  end.

(** The loop over [lines[1:]]; [None] is the uncaught exception. *)
Fixpoint collect_years (idx : nat) (lines : list str) (years : list Z)
  : option (list Z) :=
  match lines with
  | [] => Some years
  | line :: rest =>
      let values := split_on ch_comma line in
      if idx <? List.length values then
        match year_of_cell (nth idx values []) with
        | CYear y => collect_years idx rest (add_year y years)
        | CSkip => collect_years idx rest years
        | CRaise => None
        end
      else collect_years idx rest years
  end.

Definition years_of_lines (lines : list str) : option (list Z) :=
  match lines with
  | header :: ((_ :: _) as data) =>
      collect_years (year_col_index (split_on ch_comma header)) data []
  | _ => Some []
  end.

(** Everything [fetch_chart_data_years] does after obtaining the text. *)
Definition years_of_text (response_text : str) : option (list Z) :=
  years_of_lines (split_on ch_nl (strip response_text)).

(** Reading a file opened in text mode ([open(path, "r")], universal
    newlines): ["\r\n"] and a lone ["\r"] both read as ["\n"]. Writing in
    text mode on a POSIX system stores the text as it is. *)
Fixpoint universal_newlines (s : str) : str :=
  match s with
  | [] => []
  | c :: r =>
      if Ascii.eqb c ch_cr then
        ch_nl :: match r with
                 | d :: r' => if Ascii.eqb d ch_nl then universal_newlines r'
                              else universal_newlines r
                 | [] => []
                 end
      else c :: universal_newlines r
  end.

(** ** The run's state: the CSV cache directory, the [lru_cache] of
    [fetch_chart_data_years], and a trace of the observable steps. *)

Inductive event : Type :=
| NetFetch (slug : str)
| DiskRead (slug : str)
| DiskWrite (slug : str)
| Parse (slug : str).

Record world : Type := {
  disk : str -> option str;
  memo : list (str * list Z);
  trace : list event
}.

Definition log (e : event) (w : world) : world :=
  {| disk := disk w; memo := memo w; trace := trace w ++ [e] |}.

Definition disk_write (slug text : str) (w : world) : world :=
  {| disk := fun k => if str_eqb k slug then Some text else disk w k;
     memo := memo w; trace := trace w ++ [DiskWrite slug] |}.

Definition memo_add (slug : str) (ys : list Z) (w : world) : world :=
  {| disk := disk w; memo := (slug, ys) :: memo w; trace := trace w |}.

Fixpoint memo_lookup (m : list (str * list Z)) (slug : str) : option (list Z) :=
  match m with
  | [] => None
  | (k, v) :: r => if str_eqb k slug then Some v else memo_lookup r slug
  end.

(** A computation that may raise: the effects made before an exception
    stay in the world. *)
Definition M (A : Type) : Type := world -> option A * world.

Definition ret {A} (a : A) : M A := fun w => (Some a, w).

Definition bind {A B} (m : M A) (f : A -> M B) : M B :=
  fun w => match m w with
           | (Some a, w') => f a w'
           | (None, w') => (None, w')
           end.

Definition lift_opt {A} (o : option A) : M A := fun w => (o, w).

Definition tick (e : event) : M unit := fun w => (Some tt, log e w).

Notation "x <- m ;; k" := (bind m (fun x => k)) (at level 61, m at next level, right associativity).

Section Extractor.

(** [requests.get(f"{GRAPHER_BASE_URL}/{slug}.csv")]: the response text,
    or [None] when the request or [raise_for_status] raises. *)
Variable net_csv : str -> option str.

(** [fetch_csv_data(slug)] (lines 276-294). *)
Definition fetch_csv_data (slug : str) : M str :=
  fun w =>
    match disk w slug with
    | Some content => (Some (universal_newlines content), log (DiskRead slug) w)
    | None =>
        let text := match net_csv slug with Some t => t | None => [] end in
        (Some text, disk_write slug text (log (NetFetch slug) w))
    end.

(** The body of [fetch_chart_data_years] (lines 236-273). *)
Definition fetch_chart_data_years_body (slug : str) : M (list Z) :=
  match slug with
  | [] => ret []
  | _ =>
      response_text <- fetch_csv_data slug ;;
      _ <- tick (Parse slug) ;;
      lift_opt (years_of_text response_text)
  end.

(** With [@functools.lru_cache(maxsize=None)]: a hit returns the stored
    set; a call that raises stores nothing. *)
Definition fetch_chart_data_years (slug : str) : M (list Z) :=
  fun w =>
    match memo_lookup (memo w) slug with
    | Some ys => (Some ys, w)
    | None =>
        match fetch_chart_data_years_body slug w with
        | (Some ys, w1) => (Some ys, memo_add slug ys w1)
        | (None, w1) => (None, w1)
        end
    end.

End Extractor.

(** ** Python operations on decoded values used by [try_with_dimensions]
    and [generate_chart_result] *)

Fixpoint is_infix (p s : str) : bool :=
  match strip_prefix p s with
  | Some _ => true
  | None => match s with [] => false | _ :: r => is_infix p r end
  end.

(** The keys of the [dict] built from an object, in first-insertion order. *)
Fixpoint dict_keys_from (seen : list str) (kvs : list (str * json)) : list str :=
  match kvs with
  | [] => []
  | (k, _) :: r =>
      if existsb (str_eqb k) seen then dict_keys_from seen r
      else k :: dict_keys_from (k :: seen) r
  end.

(** [for x in v]; [None] is the [TypeError] of a non-iterable value. *)
Definition py_iter (v : json) : option (list json) :=
  match v with
  | JArr l => Some l
  | JObj kvs => Some (map JStr (dict_keys_from [] kvs))
  | JStr s => Some (map (fun c => JStr [c]) s)
  | _ => None
  end.

(** [x in v] for a [str] [x]. *)
Definition py_contains_str (x : str) (v : json) : option bool :=
  match v with
  | JObj kvs => Some (obj_has kvs x)
  | JArr l => Some (existsb (fun e => json_is_str e x) l)
  | JStr s => Some (is_infix x s)
  | _ => None
  end.

Definition hashable (v : json) : bool :=
  match v with JArr _ | JObj _ => false | _ => true end.

(** [d.get(k, default)] on a value that must be a [dict]. *)
Definition py_get_default (v : json) (k : str) (default : json) : option json :=
  match v with
  | JObj kvs => Some (match obj_lookup kvs k with Some x => x | None => default end)
  | _ => None
  end.

(** Python [==] between hashable scalars ([True == 1]). A [float] never
    reaches it, nor [py_lt] below: the values compared are years that
    [split_date] has let through ([int], [bool] or [str]) or [None]. *)
Definition num_of (v : json) : option Z :=
  match v with
  | JInt z => Some z
  | JBool b => Some (if b then 1%Z else 0%Z)
  | _ => None
  end.

Definition py_eq_scalar (a b : json) : bool :=
  match num_of a, num_of b with
  | Some x, Some y => Z.eqb x y
  | None, None =>
      match a, b with
      | JStr s, JStr t => str_eqb s t
      | JNull, JNull => true
      | _, _ => false
      end
  | _, _ => false
  end.

(** [a < b]; [None] is the [TypeError] between a number and a string. *)
Fixpoint str_ltb (s t : str) : bool :=
  match s, t with
  | [], [] => false
  | [], _ :: _ => true
  | _ :: _, [] => false
  | a :: s', b :: t' =>
      if (nat_of_ascii a <? nat_of_ascii b)%nat then true
      else if Ascii.eqb a b then str_ltb s' t' else false
  end.

Definition py_lt (a b : json) : option bool :=
  match num_of a, num_of b with
  | Some x, Some y => Some (Z.ltb x y)
  | _, _ =>
      match a, b with
      | JStr s, JStr t => Some (str_ltb s t)
      | _, _ => None
      end
  end.

(** [max(xs)] and [min(xs)] on a non-empty list: the running extremum is
    replaced when [item > cur] (resp. [item < cur]). *)
Fixpoint py_extremum (better : json -> json -> option bool) (cur : json)
  (xs : list json) : option json :=
  match xs with
  | [] => Some cur
  | x :: r =>
      match better x cur with
      | Some true => py_extremum better x r
      | Some false => py_extremum better cur r
      | None => None
      end
  end.

Definition py_max (xs : list json) : option json :=
  match xs with [] => None | x :: r => py_extremum (fun a b => py_lt b a) x r end.

Definition py_min (xs : list json) : option json :=
  match xs with [] => None | x :: r => py_extremum py_lt x r end.

(** [split_date(y)] on any decoded value: an [int] (a [bool] is one) is
    returned as is, a [str] is cut at its first [-]; any other value has no
    [.split] and raises. *)
Definition split_date (y : json) : option json :=
  match y with
  | JInt _ | JBool _ => Some y
  | JStr s => Some (JStr (split_date_str s))
  | _ => None
  end.

(** [list(set(xs))] on hashable values. *)
Definition py_dedup (xs : list json) : list json :=
  fold_left (fun acc x => if existsb (py_eq_scalar x) acc then acc else acc ++ [x])
    xs [].

(** ** [try_with_dimensions] (lines 40-66) *)

(** The comprehension [{dim.get("property"): dim.get("variableId") for dim
    in dimensions if "variableId" in dim}] followed by [.get("y")]: the
    value of the last dimension whose property is ["y"]. *)
Fixpoint dims_y_variable (dims : list json) (acc : json) : option json :=
  match dims with
  | [] => Some acc
  | d :: r =>
      match py_contains_str (lit "variableId") d with
      | None => None
      | Some false => dims_y_variable r acc
      | Some true =>
          match d with
          | JObj kvs =>
              let k := obj_get kvs (lit "property") in
              if hashable k then
                dims_y_variable r
                  (if json_is_str k (lit "y") then obj_get kvs (lit "variableId") else acc)
              else None
          | _ => None
          end
      end
  end.

(** [[split_date(y.get("id")) for y in years_info if "id" in y]] *)
Fixpoint year_ids (ys : list json) : option (list json) :=
  match ys with
  | [] => Some []
  | y :: r =>
      match py_contains_str (lit "id") y with
      | None => None
      | Some false => year_ids r
      | Some true =>
          match y with
          | JObj kvs =>
              match split_date (obj_get kvs (lit "id")), year_ids r with
              | Some v, Some vs => Some (v :: vs)
              | _, _ => None
              end
          | _ => None
          end
      end
  end.

Section Classifier.

Variable net_csv : str -> option str.

(** [requests.get(...{variableId}.metadata.json).json()] for a variable id,
    or [None] when the request, [raise_for_status] or [.json()] raises. *)
Variable net_meta : json -> option json.

(** [None] is an exception escaping the function: the lookups after the
    [try] and [split_date] are unguarded. *)
Definition try_with_dimensions (dimensions : json) : option (list json) :=
  if negb (truthy dimensions) then Some []
  else
    match py_iter dimensions with
    | None => None
    | Some dims =>
        match dims_y_variable dims JNull with
        | None => None
        | Some variableId =>
            if negb (truthy variableId) then Some []
            else
              match net_meta variableId with
              | None => Some []
              | Some data =>
                  match py_get_default data (lit "dimensions") (JObj []) with
                  | None => None
                  | Some d1 =>
                  match py_get_default d1 (lit "years") (JObj []) with
                  | None => None
                  | Some d2 =>
                  match py_get_default d2 (lit "values") (JArr []) with
                  | None => None
                  | Some years_info =>
                      match py_iter years_info with
                      | None => None
                      | Some yi =>
                          match year_ids yi with
                          | Some ys => Some (py_dedup ys)
                          | None => None
                          end
                      end
                  end end end
              end
        end
    end.

(** A row of the inventory. The [slug] column of the [charts] table is
    text; the other fields keep the decoded value, [JStr []] standing for
    the [""] default of [chart.get]. *)
Record chart_record : Type := {
  c_id : json;
  c_slug : str;
  c_title : json;
  c_isPublished : json;
  c_config : json
}.

(** The dictionary [result] of [generate_chart_result]. *)
Record chart_result : Type := {
  res_chart_id : json;
  res_slug : str;
  res_title : json;
  res_url : str;
  res_has_map_tab : str;
  res_max_time : json;
  res_min_time : json;
  res_default_tab : json;
  res_is_published : json;
  res_entity_type : json;
  res_single_year_data : str;
  res_len_years : nat;
  res_has_timeline : str
}.

Definition GRAPHER_BASE_URL : str := lit "https://ourworldindata.org/grapher".

(** [map_info.get(k) or (max(years) if years else None)]: the right operand
    is only evaluated when the left one is falsy. *)
Definition bound_or_years (bound : json) (extremum : list json -> option json)
  (years : list json) : option json :=
  if truthy bound then Some bound
  else match years with [] => Some JNull | _ => extremum years end.

(** [generate_chart_result(chart)] (lines 354-397). *)
Definition generate_chart_result (chart : chart_record) : M chart_result :=
  let slug := c_slug chart in
  config <- lift_opt (parse_chart_config_py (c_config chart)) ;;
  mi <- lift_opt (parse_config_for_map_info config) ;;
  let base_url := GRAPHER_BASE_URL ++ lit "/" ++ slug in
  let map_url := if has_map_tab mi then base_url ++ lit "?tab=map" else base_url in
  primary <- fetch_chart_data_years net_csv slug ;;
  years <- lift_opt
             (match primary with
              | [] =>
                  match config with
                  | JObj kvs => try_with_dimensions (obj_get kvs (lit "dimensions"))
                  | _ => None
                  end
              | _ => Some (map JInt primary)
              end) ;;
  let len_years := List.length years in
  max_t <- lift_opt (bound_or_years (max_time mi) py_max years) ;;
  min_t <- lift_opt (bound_or_years (min_time mi) py_min years) ;;
  ret {| res_chart_id := c_id chart;
         res_slug := slug;
         res_title := c_title chart;
         res_url := map_url;
         res_has_map_tab := if has_map_tab mi then lit "Yes" else lit "No";
         res_max_time := max_t;
         res_min_time := min_t;
         res_default_tab := default_tab mi;
         res_is_published := c_isPublished chart;
         res_entity_type := entity_type mi;
         res_single_year_data :=
           if (len_years =? 1)%nat then lit "Yes"
           else if (1 <? len_years)%nat then lit "No" else lit "Unknown";
         res_len_years := len_years;
         res_has_timeline := if has_timeline mi then lit "Yes" else lit "No" |}.

End Classifier.

(** ** [check_single_year_map] (lines 297-324), which no caller uses

    [map_info] is the dictionary built by [parse_config_for_map_info], whose
    keys are [max_time] and [min_time]: the lookups of [timelineMaxTime],
    [MaxTime], [timelineMinTime] and [MinTime] on it always give [None], so
    the equal-bounds test never fires. The answer pairs a flag ([JNull] for
    [None]) with a count or ["-"]. *)
Definition check_single_year_map (net_csv : str -> option str) (slug : str)
  (mi : map_info) : M (json * json) :=
  if negb (has_timeline mi) then ret (JBool true, JStr (lit "-"))
  else if truthy (map_time mi) then ret (JBool true, JStr (lit "-"))
  else
    let timelineMaxTime := py_or JNull JNull in
    let timelineMinTime := py_or JNull JNull in
    let by_years :=
      years <- fetch_chart_data_years net_csv slug ;;
      let n := List.length years in
      if (n =? 1)%nat then ret (JBool true, JInt 1)
      else if (1 <? n)%nat then ret (JBool false, JInt (Z.of_nat n))
      else ret (JNull, JInt 0) in
    match timelineMaxTime, timelineMinTime with
    | JNull, _ | _, JNull => by_years
    | a, b => if py_eq_scalar a b then ret (JBool true, JStr (lit "-")) else by_years
    end.

(** ** [fetch_map_charts_from_sql] (lines 69-151) *)

Record page : Type := {
  columns : list str;
  rows : list (list json)
}.

Definition page_size : nat := 1000.

(** [dict(zip(columns, row))] *)
Definition chart_of_row (cols : list str) (row : list json) : list (str * json) :=
  combine cols row.

(** ** [fetch_total_chart_count] (lines 161-186)

    [v[0]] on a decoded value; [None] is the exception it raises: an
    [IndexError] on an empty list or string, a [KeyError] on a [dict] (the
    keys of a decoded object are strings, never [0]), a [TypeError] on a
    scalar. *)
Definition py_index0 (v : json) : option json :=
  match v with
  | JArr (x :: _) => Some x
  | JStr (c :: _) => Some (JStr [c])
  | _ => None
  end.

(** [resp] is [requests.get(...).json()], [None] when the request,
    [raise_for_status] or [.json()] raises. Every exception of the body is
    caught and gives [None], here [JNull]. *)
Definition fetch_total_chart_count (resp : option json) : json :=
  match resp with
  | None => JNull
  | Some data =>
      match py_get_default data (lit "rows") (JArr [JArr [JInt 0]]) with
      | None => JNull
      | Some rows =>
          match py_index0 rows with
          | Some r => match py_index0 r with Some v => v | None => JNull end
          | None => JNull
          end
      end
  end.

(** The progress line 128 [(len(all_charts) / total_count) * 100] when
    [total_count] is truthy: a [TypeError] unless it is a number ([int],
    [bool] or [float]). *)
Definition progress_raises (total_count : json) : bool :=
  truthy total_count
  && match total_count with JInt _ | JBool _ | JFloat _ => false | _ => true end.

Section Inventory.

(** The Datasette answer to the query with [LIMIT 1000 OFFSET offset], or
    [None] when [requests.get], [raise_for_status] or [.json()] raises. *)
Variable net_page : nat -> option page.

(** The [while True] loop; [fuel] bounds the number of pages requested,
    and [None] means it ran out (the Python loop never stops if every page
    is full). [cols] is the variable [columns], set from the page at
    offset 0. An exception of the progress line, after the rows of the
    page are appended, is caught by the [except] and ends the loop. *)
Fixpoint sql_pages (total_count : json) (fuel : nat) (offset : nat) (cols : list str)
  (all_charts : list (list (str * json))) : option (list (list (str * json))) :=
  match fuel with
  | O => None
  | S f =>
      match net_page offset with
      | None => Some all_charts
      | Some data =>
          match rows data with
          | [] => Some all_charts
          | rs =>
              let cols' := if (offset =? 0)%nat then columns data else cols in
              let all' := all_charts ++ map (chart_of_row cols') rs in
              if progress_raises total_count then Some all'
              else if (List.length rs <? page_size)%nat then Some all'
              else sql_pages total_count f (offset + page_size) cols' all'
          end
      end
  end.

(** The debug dump [{chart["slug"]: {**chart, "config":
    parse_chart_config(chart["config"])} ...}] raises on a missing key, an
    unhashable slug or a configuration that does not parse. *)
Definition debug_entry_ok (chart : list (str * json)) : bool :=
  match obj_lookup chart (lit "slug"), obj_lookup chart (lit "config") with
  | Some s, Some c =>
      hashable s && match parse_chart_config_py c with Some _ => true | None => false end
  | _, _ => false
  end.

Inductive fetch_outcome : Type :=
| Returned (charts : list (list (str * json)))
| Raised
| Unfinished.

(** [count_resp] is the answer to the request of [fetch_total_chart_count]. *)
Definition fetch_map_charts_from_sql (count_resp : option json) (fuel : nat) : fetch_outcome :=
  let total_count := fetch_total_chart_count count_resp in
  match sql_pages total_count fuel 0 [] [] with
  | None => Unfinished
  | Some all_charts =>
      if forallb debug_entry_ok all_charts then Returned all_charts else Raised
  end.

End Inventory.

(** ** [save_results] (lines 400-442): the rows of the full report and of
    the published subset, [None] when that file is not created. *)

Record report : Type := {
  full_rows : list chart_result;
  published_rows : option (list chart_result)
}.

(** [r["is_published"] == "True" or r["is_published"] is True] *)
Definition is_published_flag (v : json) : bool :=
  json_is_str v (lit "True") || match v with JBool true => true | _ => false end.

Definition save_results (results : list chart_result) : report :=
  let map_charts := filter (fun r => str_eqb (res_has_map_tab r) (lit "Yes")) results in
  let published_map_charts :=
    filter (fun r => is_published_flag (res_is_published r)) map_charts in
  {| full_rows := results;
     published_rows := match published_map_charts with
                       | [] => None
                       | _ => Some published_map_charts
                       end |}.

(** ** Concrete inputs *)

(** JSON text written with an apostrophe for each double quote. *)
Definition jtext (x : string) : str :=
  map (fun c => if Ascii.eqb c "'" then ch_dq else c) (lit x).

(** A CSV export given line by line. *)
Definition csv_lines (ls : list string) : str := str_join ch_nl (map lit ls).

Definition empty_world : world := {| disk := fun _ => None; memo := []; trace := [] |}.

Definition no_metadata : json -> option json := fun _ => None.

(** An export of slug [s] holding two distinct years. *)
Definition export_two_years : str :=
  csv_lines ["Entity,Code,Year,value"; "France,FRA,1990,1"; "France,FRA,2000,2"]%string.

Definition net_two_years (slug : str) : option str :=
  if str_eqb slug (lit "s") then Some export_two_years else None.

Definition chart_with_config (config : string) : chart_record :=
  {| c_id := JInt 1; c_slug := lit "s"; c_title := JStr (lit "t");
     c_isPublished := JStr (lit "True"); c_config := JStr (jtext config) |}.

(** ** The first scanner, [src/owid_grapher_map_scanner.py]

    A chart of [fetch_all_chart_ids] is a [dict] of five strings; its
    fallback [KNOWN_MAP_CHARTS] is a list of tuples. *)

Record grapher_chart : Type := {
  g_id : str;
  g_slug : str;
  g_title : str;
  g_type : str;
  g_isPublished : str
}.

Inductive chart_ids : Type :=
| ChartDicts (l : list grapher_chart)
| ChartTuples (l : list (str * str * str)).

Definition KNOWN_MAP_CHARTS : list (str * str * str) :=
  [(lit "390", lit "population-with-un-projections", lit "Population");
   (lit "8903", lit "most-common-religion",
    lit "What is the most common religious affiliation in each country?");
   (lit "8910", lit "trust-churches-religious-organizations",
    lit "Share of people that trust churches and religious organizations");
   (lit "8911", lit "trust-another-religion",
    lit "Share of people who say they trust people of another religion");
   (lit "8912", lit "neighbors-different-religion",
    lit "Share who said they would not want neighbors of a different religion");
   (lit "703", lit "share-of-children-younger-than-5-who-suffer-from-stunting",
    lit "Malnutrition: Share of children who are stunted")].

(** The loop over [lines[1:]] of [fetch_all_chart_ids] (lines 69-78). *)
Fixpoint charts_of_lines (lines : list str) : list grapher_chart :=
  match lines with
  | [] => []
  | line :: rest =>
      let values := split_on ch_comma line in
      if (5 <=? List.length values)%nat then
        {| g_id := nth 0 values []; g_slug := nth 1 values [];
           g_title := nth 2 values []; g_type := nth 3 values [];
           g_isPublished := nth 4 values [] |} :: charts_of_lines rest
      else charts_of_lines rest
  end.

(** [fetch_all_chart_ids()] (lines 36-85). [resp] is [response.json()],
    [None] when the request, [raise_for_status] or [.json()] raises; the
    [AttributeError] of [.get] on a value that is not a [dict] and of
    [.strip] on a [csv] member that is not a [str] are caught as well, and
    every exception gives the fallback list. *)
Definition fetch_all_chart_ids (resp : option json) : chart_ids :=
  match resp with
  | None => ChartTuples KNOWN_MAP_CHARTS
  | Some data =>
      match py_get_default data (lit "csv") (JStr []) with
      | Some (JStr csv) =>
          let lines := split_on ch_nl (strip csv) in
          if (List.length lines <? 2)%nat then ChartDicts []
          else ChartDicts (charts_of_lines (tl lines))
      | _ => ChartTuples KNOWN_MAP_CHARTS
      end
  end.

(** [l[:n]] for an [int] [n]: a negative bound counts from the end. *)
Definition py_slice_upto {A} (l : list A) (n : Z) : list A :=
  if (0 <=? n)%Z then firstn (Z.to_nat n) l
  else firstn (Z.to_nat (Z.of_nat (List.length l) + n)) l.

Definition html_indicators : list str :=
  [jtext "'tab':'map'"; jtext "'hasMapTab':true"; jtext "'hasMapTab':1";
   jtext "data-tab='map'"; jtext "class='map-tab'"; lit "tab=map"].

(** [check_map_tab_via_html(slug)] (lines 151-183). [net_html url] is the
    text of the page, [None] when the request or [raise_for_status]
    raises. *)
Definition check_map_tab_via_html (net_html : str -> option str) (slug : str) : bool :=
  match net_html (GRAPHER_BASE_URL ++ lit "/" ++ slug) with
  | None => false
  | Some html => existsb (fun indicator => is_infix indicator html) html_indicators
  end.

Record grapher_row : Type := {
  gr_chart_id : str;
  gr_slug : str;
  gr_title : str;
  gr_url : str;
  gr_has_map_tab : str;
  gr_is_published : str;
  gr_single_year_data : str
}.

(** The [result] dictionary built for one chart (lines 218-226); the
    [.get] defaults are never used, the charts of [fetch_all_chart_ids]
    having both keys. *)
Definition grapher_row_of (net_html : str -> option str) (c : grapher_chart) : grapher_row :=
  let slug := g_slug c in
  let has_map := check_map_tab_via_html net_html slug in
  {| gr_chart_id := g_id c;
     gr_slug := slug;
     gr_title := g_title c;
     gr_url := if has_map then GRAPHER_BASE_URL ++ lit "/" ++ slug ++ lit "?tab=map"
               else GRAPHER_BASE_URL ++ lit "/" ++ slug;
     gr_has_map_tab := if has_map then lit "Yes" else lit "No";
     gr_is_published := g_isPublished c;
     gr_single_year_data := lit "To be checked" |}.

(** [scan_grapher_pages(max_charts)] (lines 186-234), [None] for
    [max_charts=None]. The rows are given in submission order;
    [as_completed] appends them in completion order, a permutation of it.
    [chart["id"]] on a tuple of the fallback list raises a [TypeError]
    outside any [try]: the result is then [None]. *)
Definition scan_grapher_pages (net_html : str -> option str) (resp : option json)
  (max_charts : option Z) : option (list grapher_row) :=
  let charts := fetch_all_chart_ids resp in
  let charts :=
    match max_charts with
    | Some n =>
        if (n =? 0)%Z then charts
        else match charts with
             | ChartDicts l => ChartDicts (py_slice_upto l n)
             | ChartTuples l => ChartTuples (py_slice_upto l n)
             end
    | None => charts
    end in
  match charts with
  | ChartDicts l => Some (map (grapher_row_of net_html) l)
  | ChartTuples [] => Some []
  | ChartTuples (_ :: _) => None
  end.

(** [check_chart_for_map(chart_id, slug)] (lines 88-148), which no caller
    uses. *)
Inductive check_error : Type :=
| NoData
| NoYearColumn
| ExceptionText.

Record map_check : Type := {
  mc_id : str;
  mc_slug : str;
  mc_has_map : bool;
  mc_single_year : bool;
  mc_years : list Z;
  mc_error : option check_error
}.

(** [h.lower() in ["year", "time", "date"]]: the header is not stripped. *)
Definition is_year_header_raw (h : str) : bool :=
  let k := lower h in
  str_eqb k (lit "year") || str_eqb k (lit "time") || str_eqb k (lit "date").

Fixpoint find_year_col_raw (i : nat) (headers : list str) : option nat :=
  match headers with
  | [] => None
  | h :: r => if is_year_header_raw h then Some i else find_year_col_raw (S i) r
  end.

(** [int(float(values[idx]))]: no [split_date], and [float] strips the
    cell itself. *)
Definition cell_year (cell : str) : cell_outcome :=
  match py_float cell with
  | Some f => py_int_of_float f
  | None => CSkip
  end.

(** The loop of lines 128-135: the years collected, and whether an
    exception escaped the inner [except (ValueError, IndexError)]. *)
Fixpoint collect_check (idx : nat) (lines : list str) (years : list Z) : list Z * bool :=
  match lines with
  | [] => (years, false)
  | line :: rest =>
      let values := split_on ch_comma line in
      if (idx <? List.length values)%nat then
        match cell_year (nth idx values []) with
        | CYear y => collect_check idx rest (add_year y years)
        | CSkip => collect_check idx rest years
        | CRaise => (years, true)
        end
      else collect_check idx rest years
  end.

Definition check_chart_for_map (net_csv : str -> option str) (chart_id slug : str) : map_check :=
  let fail e ys := {| mc_id := chart_id; mc_slug := slug; mc_has_map := false;
                      mc_single_year := false; mc_years := ys; mc_error := Some e |} in
  match net_csv slug with
  | None => fail ExceptionText []
  | Some text =>
      let lines := split_on ch_nl (strip text) in
      if (List.length lines <? 2)%nat then fail NoData []
      else
        match find_year_col_raw 0 (split_on ch_comma (hd [] lines)) with
        | None => fail NoYearColumn []
        | Some idx =>
            let '(ys, raised) := collect_check idx (tl lines) [] in
            if raised then fail ExceptionText ys
            else {| mc_id := chart_id; mc_slug := slug;
                    mc_has_map := (0 <? List.length ys)%nat;
                    mc_single_year := (List.length ys =? 1)%nat;
                    mc_years := ys; mc_error := None |}
        end
  end.

(** ** Inputs and specification-side definitions used by the claims *)

Definition chart_hidden_timeline : chart_record :=
  chart_with_config "{'tab':'map','map':{'hideTimeline':true}}".

Definition chart_zero_bounds : chart_record :=
  chart_with_config "{'timelineMaxTime':0,'timelineMinTime':0}".

(** The subset described by the report's documentation: rows with
    [has_map_tab = "Yes"] whose [is_published] is the string ["True"] or
    the boolean [True]. *)
Definition published_and_mapped (r : chart_result) : bool :=
  str_eqb (res_has_map_tab r) (lit "Yes") &&
  match res_is_published r with
  | JStr t => str_eqb t (lit "True")
  | JBool b => b
  | _ => false
  end.

Definition row_published_lowercase : chart_result :=
  {| res_chart_id := JInt 1; res_slug := lit "s"; res_title := JStr (lit "t");
     res_url := lit "https://ourworldindata.org/grapher/s?tab=map";
     res_has_map_tab := lit "Yes"; res_max_time := JNull; res_min_time := JNull;
     res_default_tab := JStr (lit "map"); res_is_published := JStr (lit "true");
     res_entity_type := JNull; res_single_year_data := lit "Unknown";
     res_len_years := 0; res_has_timeline := lit "Yes" |}.

Definition is_net_fetch_of (slug : str) (e : event) : bool :=
  match e with NetFetch s => str_eqb s slug | _ => false end.

Definition is_parse_of (slug : str) (e : event) : bool :=
  match e with Parse s => str_eqb s slug | _ => false end.

(** Every set stored by the [lru_cache] holds non-negative years. *)
Definition memo_nonneg (w : world) : Prop :=
  Forall (fun kv => Forall (Z.le 0) (snd kv)) (memo w).

Definition export_with_bce : str :=
  csv_lines ["Entity,Code,Year,value"; "World,OWID_WRL,-500,1"; "World,OWID_WRL,1990,2"]%string.

Definition nonspace (c : ascii) : bool := negb (is_space c).

(** A character that may pad a header cell: whitespace other than the line
    feed that ends the row. *)
Definition pad_char (c : ascii) : bool := is_space c && negb (Ascii.eqb c ch_nl).

(** [h'] is the cell [h] with whitespace added on either side. *)
Definition padded_cell (h h' : str) : Prop :=
  exists l r, h' = l ++ h ++ r /\ forallb pad_char (l ++ r) = true.

Definition page_charts (cols : list str) (p : page) : list (list (str * json)) :=
  map (chart_of_row cols) (rows p).

(** The column names in force: those of the page at offset 0. *)
Definition inventory_cols (ps : list page) (stop : option page) : list str :=
  match ps with
  | p0 :: _ => columns p0
  | [] => match stop with Some p => columns p | None => [] end
  end.

(** An inventory whose single page, at offset 0, is full: [page_size] rows
    of slug ["s"] and configuration [cfg]; the next request fails. *)
Definition inv_page (cfg : json) : page :=
  {| columns := [lit "slug"; lit "config"];
     rows := repeat [JStr (lit "s"); cfg] page_size |}.

Definition net_one_page (cfg : json) (off : nat) : option page :=
  if (off =? 0)%nat then Some (inv_page cfg) else None.

(** ** Lemmas on the string helpers *)

Lemma str_eqb_eq : forall a b, str_eqb a b = true <-> a = b.
Proof.
  intros a b; unfold str_eqb; destruct (list_eq_dec ascii_dec a b);
    split; congruence.
Qed.

Lemma str_eqb_refl : forall a, str_eqb a a = true.
Proof. intro a; apply str_eqb_eq; reflexivity. Qed.

(** ** C3: the map-tab flag *)

(** C3. For every configuration object that [parse_config_for_map_info]
    accepts, the [has_map_tab] output is true exactly when [hasMapTab] is
    truthy or [tab] equals ["map"], and [tab] equal to ["map"] also sets
    [default_tab] to ["map"]. *)
Theorem has_map_tab_or_rule (config : json) (mi : map_info)
  (H : parse_config_for_map_info config = Some mi) :
  match config with
  | JObj kvs =>
      has_map_tab mi =
        truthy (obj_get kvs (lit "hasMapTab")) || json_is_str (obj_get kvs (lit "tab")) (lit "map")
      /\ (json_is_str (obj_get kvs (lit "tab")) (lit "map") = true ->
          default_tab mi = JStr (lit "map"))
  | _ => False
  end.
Proof.
  destruct config as [| | | | | |kvs]; try discriminate H.
  unfold parse_config_for_map_info in H.
  set (hm := truthy (obj_get kvs (lit "hasMapTab"))) in *.
  set (tm := json_is_str (obj_get kvs (lit "tab")) (lit "map")) in *.
  destruct (obj_has kvs (lit "map"));
    [destruct (obj_get kvs (lit "map")); try discriminate H |];
    injection H as <-; simpl;
    (split; [destruct tm, hm; reflexivity | intro Ht; rewrite Ht; reflexivity]).
Qed.

Lemma has_map_tab_or_rule_witness :
  parse_config_for_map_info (JObj [(lit "tab", JStr (lit "map"))]) <> None /\
  exists mi, parse_config_for_map_info (JObj [(lit "tab", JStr (lit "map"))]) = Some mi /\
    has_map_tab mi = true.
Proof.
  split; [discriminate |].
  eexists; split; [reflexivity |].
  pose proof (has_map_tab_or_rule (JObj [(lit "tab", JStr (lit "map"))]) _ eq_refl) as [H _].
  exact H.
Defined.

(** ** C1: the short-circuit single-year signals *)

(** C1 (failing input). A chart whose configuration hides the timeline,
    and whose export holds the years 1990 and 2000, is classified with
    [has_timeline = "No"] but [single_year_data = "No"]: the classifier
    counts the extracted years only, while the unused sibling
    [check_single_year_map] answers single-year for the same map
    information without fetching anything. *)
Theorem hidden_timeline_not_single_year :
  exists res w',
    generate_chart_result net_two_years no_metadata chart_hidden_timeline empty_world
      = (Some res, w')
    /\ res_has_timeline res = lit "No"
    /\ res_single_year_data res = lit "No"
    /\ res_len_years res = 2%nat
    /\ exists mi, parse_config_for_map_info
                    (JObj [(lit "tab", JStr (lit "map"));
                           (lit "map", JObj [(lit "hideTimeline", JBool true)])]) = Some mi
        /\ check_single_year_map net_two_years (lit "s") mi empty_world
           = (Some (JBool true, JStr (lit "-")), empty_world).
Proof.
  do 2 eexists; split; [vm_compute; reflexivity |].
  split; [reflexivity |]; split; [reflexivity |]; split; [reflexivity |].
  eexists; split; [reflexivity | reflexivity].
Qed.

(** ** C8: the time bounds *)

(** C8 (failing input). Explicit top-level bounds equal to [0] are present
    in the configuration, yet [max_time] and [min_time] come from the years
    of the export (2000 and 1990): both [or] tests treat the falsy [0] as
    absent. *)
Theorem zero_bounds_replaced_by_years :
  exists res w',
    generate_chart_result net_two_years no_metadata chart_zero_bounds empty_world
      = (Some res, w')
    /\ res_max_time res = JInt 2000
    /\ res_min_time res = JInt 1990.
Proof.
  do 2 eexists; split; [vm_compute; reflexivity |]; split; reflexivity.
Qed.

(** ** C2: [parse_chart_config] *)

(** C2 (counterexample). On the empty text, the text a chart without a
    [config] column receives, both decodings fail and
    [parse_chart_config] raises instead of returning a default. *)
Lemma parse_chart_config_empty_raises :
  json_loads (replace_dq []) = None /\ json_loads [] = None /\
  parse_chart_config [] = None.
Proof. vm_compute; repeat split. Qed.

(** C2 (amended). [parse_chart_config] returns the value decoded from the
    text with doubled quotes normalised when that succeeds, otherwise the
    value decoded from the original text; it raises exactly when both
    decodings fail. *)
Theorem parse_chart_config_fallback (s : str) :
  (forall v, json_loads (replace_dq s) = Some v -> parse_chart_config s = Some v)
  /\ (json_loads (replace_dq s) = None -> parse_chart_config s = json_loads s)
  /\ (parse_chart_config s = None <->
      json_loads (replace_dq s) = None /\ json_loads s = None).
Proof.
  unfold parse_chart_config.
  destruct (json_loads (replace_dq s)) as [v|] eqn:E.
  - split; [intros v' Hv; injection Hv as <-; reflexivity |].
    split; [discriminate | split; [discriminate | intros [Hc _]; discriminate Hc]].
  - split; [discriminate |]. split; [reflexivity |].
    split; [intro H; split; [reflexivity | exact H] | intros [_ H]; exact H].
Qed.

(** ** C4: the published subset *)

(** C4 (counterexample). A mapped row whose [is_published] is the string
    ["true"] is left out: no subset file is written for it. *)
Lemma lowercase_true_not_published :
  published_rows (save_results [row_published_lowercase]) = None.
Proof. reflexivity. Qed.

Lemma filter_filter_andb {A} (f g : A -> bool) (l : list A) :
  filter g (filter f l) = filter (fun x => f x && g x) l.
Proof.
  induction l as [|x l IH]; simpl; [reflexivity |].
  destruct (f x); simpl; [destruct (g x); simpl; rewrite ?IH; reflexivity | exact IH].
Qed.

(** C4 (amended). The subset holds, in the report's order, exactly the
    rows with [has_map_tab = "Yes"] and [is_published] equal to the string
    ["True"] or the boolean [True]; no subset file is written when there is
    none, and the full report is every row. *)
Theorem published_subset_filter (results : list chart_result) :
  full_rows (save_results results) = results /\
  published_rows (save_results results) =
    match filter published_and_mapped results with
    | [] => None
    | s => Some s
    end /\
  (published_rows (save_results results) = None <->
   forall r, In r results -> published_and_mapped r = false).
Proof.
  assert (Hf : filter (fun r => is_published_flag (res_is_published r))
                 (filter (fun r => str_eqb (res_has_map_tab r) (lit "Yes")) results)
               = filter published_and_mapped results).
  { rewrite filter_filter_andb. apply filter_ext. intro r.
    unfold published_and_mapped, is_published_flag, json_is_str.
    destruct (res_is_published r) as [| [|] | | | | |]; try reflexivity;
      rewrite ?Bool.orb_false_r, ?Bool.andb_false_r; reflexivity. }
  unfold save_results; cbv zeta; rewrite Hf; cbn [full_rows published_rows].
  split; [reflexivity |].
  split; [destruct (filter published_and_mapped results); reflexivity |].
  split.
  - intros H r Hin. destruct (published_and_mapped r) eqn:E; [| reflexivity].
    assert (Hin' : In r (filter published_and_mapped results))
      by (apply filter_In; auto).
    destruct (filter published_and_mapped results); [contradiction | discriminate].
  - intros H. destruct (filter published_and_mapped results) as [|r s] eqn:E;
      [reflexivity |].
    assert (Hin : In r (filter published_and_mapped results)) by (rewrite E; left; reflexivity).
    apply filter_In in Hin as [Hin Hr]. rewrite H in Hr by exact Hin. discriminate.
Qed.

(** ** C6 and C7: the memo and the CSV cache *)

Lemma memo_lookup_add (slug : str) (ys : list Z) (w : world) :
  memo_lookup (memo (memo_add slug ys w)) slug = Some ys.
Proof. simpl. rewrite str_eqb_refl. reflexivity. Qed.

(** Every run of the body appends at most one fetch and one parse of its
    slug to the trace. *)
Lemma body_trace (net_csv : str -> option str) (slug : str) (w : world) :
  exists evs, trace (snd (fetch_chart_data_years_body net_csv slug w)) = trace w ++ evs
    /\ (List.length (filter (is_net_fetch_of slug) evs) <= 1)%nat
    /\ (List.length (filter (is_parse_of slug) evs) <= 1)%nat.
Proof.
  destruct slug as [|c s].
  - exists []. simpl. rewrite app_nil_r. auto.
  - unfold fetch_chart_data_years_body, bind, fetch_csv_data, tick, lift_opt.
    destruct (disk w (c :: s)) as [content|].
    + exists [DiskRead (c :: s); Parse (c :: s)]. simpl.
      rewrite <- app_assoc. simpl. rewrite str_eqb_refl. auto.
    + exists [NetFetch (c :: s); DiskWrite (c :: s); Parse (c :: s)]. simpl.
      rewrite <- !app_assoc. simpl. rewrite str_eqb_refl. auto.
Qed.

(** C6. A call of the memoised extractor that returns leaves a world in
    which a second call with the same slug returns the same set and changes
    nothing (no fetch, no read, no parse); the first call fetched and parsed
    that slug at most once. (No caller catches an exception of the
    extractor, so a run only calls it again after it returned.) *)
Theorem fetch_chart_data_years_memoised (net_csv : str -> option str)
  (slug : str) (w w1 : world) (ys : list Z)
  (H : fetch_chart_data_years net_csv slug w = (Some ys, w1)) :
  fetch_chart_data_years net_csv slug w1 = (Some ys, w1)
  /\ exists evs, trace w1 = trace w ++ evs
     /\ (List.length (filter (is_net_fetch_of slug) evs) <= 1)%nat
     /\ (List.length (filter (is_parse_of slug) evs) <= 1)%nat.
Proof.
  unfold fetch_chart_data_years in H |- *.
  destruct (memo_lookup (memo w) slug) as [ys0|] eqn:Em.
  - injection H as <- <-. rewrite Em. split; [reflexivity |].
    exists []. rewrite app_nil_r. simpl. auto.
  - destruct (body_trace net_csv slug w) as [evs [Ht Hc]].
    destruct (fetch_chart_data_years_body net_csv slug w) as [[ys'|] w1'] eqn:Eb;
      [| discriminate H].
    injection H as <- <-. rewrite memo_lookup_add. split; [reflexivity |].
    exists evs. simpl in Ht |- *. rewrite Ht. split; [reflexivity | exact Hc].
Qed.

Lemma fetch_chart_data_years_memoised_witness :
  fetch_chart_data_years net_two_years (lit "s") empty_world
    = (Some [1990%Z; 2000%Z],
       snd (fetch_chart_data_years net_two_years (lit "s") empty_world))
  /\ fst (fetch_chart_data_years net_two_years (lit "s")
            (snd (fetch_chart_data_years net_two_years (lit "s") empty_world)))
     = Some [1990%Z; 2000%Z].
Proof.
  assert (H : fetch_chart_data_years net_two_years (lit "s") empty_world
              = (Some [1990%Z; 2000%Z],
                 snd (fetch_chart_data_years net_two_years (lit "s") empty_world)))
    by (vm_compute; reflexivity).
  split; [exact H |].
  destruct (fetch_chart_data_years_memoised net_two_years (lit "s") empty_world _ _ H)
    as [H2 _].
  rewrite H2. reflexivity.
Defined.

(** C7. The export of a slug is read from its cache file when the file
    exists, with no network request (in text mode, so line endings read as
    ["\n"]); otherwise it is fetched, written to
    the cache file and returned, the empty text standing for a failed
    request; after a failed request the extractor returns the empty set
    without raising. *)
Theorem fetch_csv_data_resolution (net_csv : str -> option str) (slug : str) (w : world) :
  (forall content, disk w slug = Some content ->
     fetch_csv_data net_csv slug w
     = (Some (universal_newlines content), log (DiskRead slug) w))
  /\ (disk w slug = None ->
      exists w', fetch_csv_data net_csv slug w
                   = (Some (match net_csv slug with Some t => t | None => [] end), w')
        /\ disk w' slug = Some (match net_csv slug with Some t => t | None => [] end)
        /\ trace w' = trace w ++ [NetFetch slug; DiskWrite slug])
  /\ (disk w slug = None -> net_csv slug = None ->
      fetch_csv_data net_csv slug w = (Some [], snd (fetch_csv_data net_csv slug w))
      /\ disk (snd (fetch_csv_data net_csv slug w)) slug = Some [])
  /\ (disk w slug = None -> net_csv slug = None -> memo_lookup (memo w) slug = None ->
      fst (fetch_chart_data_years net_csv slug w) = Some []).
Proof.
  split; [| split; [| split]].
  - intros content Hd. unfold fetch_csv_data. rewrite Hd. reflexivity.
  - intros Hd. unfold fetch_csv_data. rewrite Hd. eexists. split; [reflexivity |].
    simpl. rewrite str_eqb_refl. split; [reflexivity |].
    rewrite <- app_assoc. reflexivity.
  - intros Hd Hn. unfold fetch_csv_data. rewrite Hd, Hn. simpl.
    rewrite str_eqb_refl. split; reflexivity.
  - intros Hd Hn Hm. unfold fetch_chart_data_years. rewrite Hm.
    destruct slug as [|c s]; [reflexivity |].
    unfold fetch_chart_data_years_body, bind, fetch_csv_data, tick, lift_opt.
    rewrite Hd, Hn. reflexivity.
Qed.

(** ** C10: extracted years are never negative *)

Lemma split_on_head_no_sep (c : ascii) (s : str) :
  match split_on c s with h :: _ => ~ In c h | [] => True end.
Proof.
  induction s as [|x s IH]; simpl; [intros [] |].
  destruct (Ascii.eqb x c) eqn:E; [intros [] |].
  destruct (split_on c s) as [|h t].
  - intros [Hx|[]]. subst. rewrite Ascii.eqb_refl in E. discriminate.
  - intros [Hx|Hin]; [subst; rewrite Ascii.eqb_refl in E; discriminate | exact (IH Hin)].
Qed.

Lemma split_date_str_no_minus (y : str) : ~ In ch_minus (split_date_str y).
Proof.
  unfold split_date_str. pose proof (split_on_head_no_sep ch_minus y) as H.
  destruct (split_on ch_minus y); [intros [] | exact H].
Qed.

Lemma lstrip_incl (s : str) : forall x, In x (lstrip s) -> In x s.
Proof.
  induction s as [|c s IH]; simpl; [tauto |].
  intros x Hx. destruct (is_space c); [right; exact (IH x Hx) | exact Hx].
Qed.

Lemma strip_incl (s : str) : forall x, In x (strip s) -> In x s.
Proof.
  intros x Hx. unfold strip, rstrip in Hx.
  apply in_rev, lstrip_incl, in_rev, lstrip_incl in Hx. exact Hx.
Qed.

Lemma take_sign_no_minus (s : str) :
  ~ In ch_minus s -> fst (take_sign s) = false.
Proof.
  intros Hn. destruct s as [|c r]; [reflexivity |]. simpl.
  destruct (Ascii.eqb c "-") eqn:E; [| destruct (Ascii.eqb c "+"); reflexivity].
  apply Ascii.eqb_eq in E. subst. exfalso. apply Hn. left. reflexivity.
Qed.

Lemma digits_Z_nonneg (ds : list ascii) : (0 <= digits_Z ds)%Z.
Proof.
  unfold digits_Z.
  assert (G : forall acc, (0 <= acc)%Z ->
            (0 <= fold_left (fun acc d => acc * 10 + digit_val d)%Z ds acc)%Z).
  { induction ds as [|d ds IH]; simpl; intros acc Ha; [exact Ha |].
    apply IH. unfold digit_val. lia. }
  apply G. lia.
Qed.

Lemma round_ne_nonneg (p q k : Z) : (0 <= p)%Z -> (0 < q)%Z -> (0 <= round_ne p q k)%Z.
Proof.
  intros Hp Hq. unfold round_ne.
  assert (Hnum : (0 <= (if (0 <=? k)%Z then p else (p * 2 ^ (- k))%Z))%Z).
  { destruct (0 <=? k)%Z; [exact Hp |].
    apply Z.mul_nonneg_nonneg; [exact Hp | apply Z.pow_nonneg; lia]. }
  assert (Hden : (0 < (if (0 <=? k)%Z then (q * 2 ^ k)%Z else q))%Z).
  { destruct (0 <=? k)%Z eqn:Ek; [| exact Hq].
    apply Z.leb_le in Ek. apply Z.mul_pos_pos; [exact Hq | apply Z.pow_pos_nonneg; lia]. }
  pose proof (Z.div_pos _ _ Hnum Hden) as Hd.
  destruct (_ <? _)%Z; [lia |]. destruct (_ <? _)%Z; [lia |].
  destruct (Z.even _); lia.
Qed.

Lemma double_of_decimal_nonneg (m e sig k : Z) :
  (0 <= m)%Z -> double_of_decimal false m e = PFin sig k -> (0 <= sig)%Z.
Proof.
  intros Hm H. unfold double_of_decimal in H.
  destruct (m =? 0)%Z; [injection H as <- _; lia |].
  destruct (309 <? e)%Z; [discriminate H |].
  destruct (Z.log2 m + 1 + 3 * e <=? -1075)%Z; [injection H as <- _; lia |].
  assert (G : forall p q, (0 <= p)%Z -> (0 < q)%Z ->
            double_of_ratio false p q = PFin sig k -> (0 <= sig)%Z).
  { intros p q Hp Hq Hr. unfold double_of_ratio in Hr.
    destruct (1024 <=? _)%Z; [discriminate Hr |].
    injection Hr as <- _. apply round_ne_nonneg; assumption. }
  destruct (0 <=? e)%Z eqn:Ee.
  - apply Z.leb_le in Ee. apply (G (m * 10 ^ e)%Z 1%Z); [| lia | exact H].
    apply Z.mul_nonneg_nonneg; [exact Hm | apply Z.pow_nonneg; lia].
  - apply Z.leb_gt in Ee. apply (G m (10 ^ (- e))%Z Hm); [apply Z.pow_pos_nonneg; lia | exact H].
Qed.

Lemma py_float_no_minus_nonneg (s : str) (m e : Z) :
  ~ In ch_minus s -> py_float s = Some (PFin m e) -> (0 <= m)%Z.
Proof.
  intros Hn H. unfold py_float in H.
  pose proof (take_sign_no_minus (strip s)) as Hs.
  destruct (take_sign (strip s)) as [neg b].
  simpl in Hs. rewrite Hs in H by (intro Hin; apply Hn, strip_incl, Hin).
  destruct (str_eqb (lower b) (lit "inf") || str_eqb (lower b) (lit "infinity"));
    [discriminate H |].
  destruct (str_eqb (lower b) (lit "nan")); [discriminate H |].
  destruct (py_decimal b) as [[[ids fds] e']|]; [| discriminate H].
  injection H as H. exact (double_of_decimal_nonneg _ _ _ _ (digits_Z_nonneg _) H).
Qed.

Lemma year_of_cell_nonneg (cell : str) (y : Z) :
  year_of_cell cell = CYear y -> (0 <= y)%Z.
Proof.
  unfold year_of_cell. intro H.
  destruct (py_float (split_date_str (strip cell))) as [f|] eqn:Ef; [| discriminate H].
  destruct f as [m e| |]; simpl in H; try discriminate H.
  pose proof (py_float_no_minus_nonneg _ m e (split_date_str_no_minus _) Ef) as Hm.
  destruct (0 <=? e)%Z eqn:Ee; injection H as <-.
  - apply Z.mul_nonneg_nonneg; [exact Hm | apply Z.pow_nonneg; lia].
  - apply Z.quot_pos; [exact Hm | apply Z.pow_pos_nonneg; lia].
Qed.

Lemma add_year_nonneg (y : Z) (ys : list Z) :
  (0 <= y)%Z -> Forall (Z.le 0) ys -> Forall (Z.le 0) (add_year y ys).
Proof.
  intros Hy Hys. unfold add_year. destruct (existsb (Z.eqb y) ys); [exact Hys |].
  apply Forall_app; split; [exact Hys | constructor; [exact Hy | constructor]].
Qed.

Lemma collect_years_nonneg (idx : nat) (lines : list str) :
  forall acc ys, Forall (Z.le 0) acc -> collect_years idx lines acc = Some ys ->
  Forall (Z.le 0) ys.
Proof.
  induction lines as [|line rest IH]; simpl; intros acc ys Ha H.
  - injection H as <-. exact Ha.
  - destruct (idx <? List.length (split_on ch_comma line))%nat; [| exact (IH _ _ Ha H)].
    destruct (year_of_cell (nth idx (split_on ch_comma line) [])) eqn:Ec;
      [| exact (IH _ _ Ha H) | discriminate H].
    apply (IH _ _ (add_year_nonneg _ _ (year_of_cell_nonneg _ _ Ec) Ha) H).
Qed.

Lemma years_of_text_nonneg (text : str) (ys : list Z) :
  years_of_text text = Some ys -> Forall (Z.le 0) ys.
Proof.
  unfold years_of_text, years_of_lines. intro H.
  destruct (split_on ch_nl (strip text)) as [|header [|l data]];
    try (injection H as <-; constructor).
  exact (collect_years_nonneg _ _ [] ys (Forall_nil _) H).
Qed.

Lemma memo_lookup_in (m : list (str * list Z)) (slug : str) (v : list Z) :
  memo_lookup m slug = Some v -> In (slug, v) m.
Proof.
  induction m as [|[k v'] m IH]; simpl; [discriminate |].
  destruct (str_eqb k slug) eqn:E.
  - intro H. injection H as <-. apply str_eqb_eq in E. subst. left. reflexivity.
  - intro H. right. exact (IH H).
Qed.

Lemma body_memo (net_csv : str -> option str) (slug : str) (w : world) :
  memo (snd (fetch_chart_data_years_body net_csv slug w)) = memo w.
Proof.
  destruct slug as [|c s]; [reflexivity |].
  unfold fetch_chart_data_years_body, bind, fetch_csv_data, tick, lift_opt.
  destruct (disk w (c :: s)); reflexivity.
Qed.

Lemma body_nonneg (net_csv : str -> option str) (slug : str) (w : world) (ys : list Z) :
  fst (fetch_chart_data_years_body net_csv slug w) = Some ys -> Forall (Z.le 0) ys.
Proof.
  destruct slug as [|c s].
  - simpl. intro H. injection H as <-. constructor.
  - unfold fetch_chart_data_years_body, bind, fetch_csv_data, tick, lift_opt.
    destruct (disk w (c :: s)); simpl; apply years_of_text_nonneg.
Qed.

Lemma lstrip_snoc_nonspace (x : ascii) (l : str) :
  is_space x = false -> exists l', lstrip (l ++ [x]) = l' ++ [x].
Proof.
  intros Hx. induction l as [|c l IH]; simpl.
  - rewrite Hx. exists []. reflexivity.
  - destruct (is_space c); [exact IH | exists (c :: l); reflexivity].
Qed.

Lemma strip_minus_head (s : str) : exists t, strip (ch_minus :: s) = ch_minus :: t.
Proof.
  unfold strip, rstrip. simpl.
  destruct (lstrip_snoc_nonspace ch_minus (rev s) eq_refl) as [l' E].
  rewrite E, rev_app_distr. exists (rev l'). reflexivity.
Qed.

(** A cell whose stripped text begins with [-] is skipped. *)
Lemma minus_cell_skipped (s : str) : year_of_cell (ch_minus :: s) = CSkip.
Proof.
  unfold year_of_cell. destruct (strip_minus_head s) as [t E]. rewrite E.
  reflexivity.
Qed.

(** C10. Every year returned by the memoised extractor is a non-negative
    integer (the memo only ever stores such sets), and a data cell that
    begins with [-] yields the empty token, on which [float] raises a
    [ValueError], so its line is skipped. *)
Theorem extracted_years_nonneg (net_csv : str -> option str) (slug : str)
  (w w' : world) (ys : list Z)
  (Hm : memo_nonneg w)
  (H : fetch_chart_data_years net_csv slug w = (Some ys, w')) :
  (forall y, In y ys -> (0 <= y)%Z) /\ memo_nonneg w'
  /\ (forall s, split_date_str (ch_minus :: s) = [] /\ py_float [] = None
                /\ year_of_cell (ch_minus :: s) = CSkip).
Proof.
  assert (Hys : Forall (Z.le 0) ys /\ memo_nonneg w').
  { unfold fetch_chart_data_years in H.
    destruct (memo_lookup (memo w) slug) as [v|] eqn:El.
    - injection H as <- <-. split; [| exact Hm].
      apply memo_lookup_in in El. exact (proj1 (Forall_forall _ _) Hm _ El).
    - pose proof (body_nonneg net_csv slug w) as Hb.
      pose proof (body_memo net_csv slug w) as Hbm.
      destruct (fetch_chart_data_years_body net_csv slug w) as [[v|] w1];
        [| discriminate H].
      injection H as <- <-. simpl in Hb, Hbm.
      specialize (Hb v eq_refl). split; [exact Hb |].
      unfold memo_nonneg. simpl. rewrite Hbm. constructor; [exact Hb | exact Hm]. }
  destruct Hys as [Hys Hw']. split; [| split; [exact Hw' |]].
  - intros y Hy. exact (proj1 (Forall_forall _ _) Hys y Hy).
  - intro s. split; [reflexivity |]. split; [reflexivity |]. apply minus_cell_skipped.
Qed.

Lemma extracted_years_nonneg_witness :
  memo_nonneg empty_world /\
  fetch_chart_data_years (fun _ => Some export_with_bce) (lit "s") empty_world
    = (Some [1990%Z], snd (fetch_chart_data_years (fun _ => Some export_with_bce)
                            (lit "s") empty_world)) /\
  (forall y, In y [1990%Z] -> (0 <= y)%Z).
Proof.
  assert (Hm : memo_nonneg empty_world) by constructor.
  assert (H : fetch_chart_data_years (fun _ => Some export_with_bce) (lit "s") empty_world
    = (Some [1990%Z], snd (fetch_chart_data_years (fun _ => Some export_with_bce)
                            (lit "s") empty_world))) by (vm_compute; reflexivity).
  split; [exact Hm |]. split; [exact H |].
  exact (proj1 (extracted_years_nonneg _ _ _ _ _ Hm H)).
Defined.

(** ** C9: whitespace around the header cells *)

Lemma lstrip_app_space (a b : str) :
  forallb is_space a = true -> lstrip (a ++ b) = lstrip b.
Proof.
  induction a as [|c a IH]; simpl; [reflexivity |].
  intro H. apply andb_prop in H as [Hc Ha]. rewrite Hc. exact (IH Ha).
Qed.

Lemma lstrip_all_space (a : str) : forallb is_space a = true -> lstrip a = [].
Proof. intro H. rewrite <- (app_nil_r a), lstrip_app_space by exact H. reflexivity. Qed.

Lemma lstrip_app_nonspace (a b : str) :
  existsb nonspace a = true -> lstrip (a ++ b) = lstrip a ++ b.
Proof.
  induction a as [|c a IH]; simpl; [discriminate |].
  unfold nonspace at 1. destruct (is_space c); simpl; [exact IH | reflexivity].
Qed.

Lemma lstrip_app_cons_nonspace (a b : str) (c : ascii) :
  is_space c = false -> lstrip (a ++ c :: b) = lstrip a ++ c :: b.
Proof.
  intro Hc. induction a as [|x a IH]; simpl; [rewrite Hc; reflexivity |].
  destruct (is_space x); [exact IH | reflexivity].
Qed.

Lemma existsb_rev {A} (f : A -> bool) (l : list A) :
  existsb f (rev l) = existsb f l.
Proof.
  destruct (existsb f l) eqn:E.
  - apply existsb_exists in E as [x [Hx Hf]]. apply existsb_exists.
    exists x. split; [apply in_rev in Hx; exact Hx | exact Hf].
  - apply not_true_iff_false. intro H. apply existsb_exists in H as [x [Hx Hf]].
    apply in_rev in Hx. assert (existsb f l = true) by (apply existsb_exists; eauto).
    congruence.
Qed.

Lemma forallb_rev {A} (f : A -> bool) (l : list A) :
  forallb f (rev l) = forallb f l.
Proof.
  induction l as [|x l IH]; simpl; [reflexivity |].
  rewrite forallb_app, IH. simpl. rewrite andb_true_r, andb_comm. reflexivity.
Qed.

Lemma forallb_nonspace_false (a : str) :
  forallb is_space a = false -> existsb nonspace a = true.
Proof.
  induction a as [|c a IH]; simpl; [discriminate |].
  unfold nonspace at 1. destruct (is_space c); simpl; [exact IH | reflexivity].
Qed.

Lemma rstrip_app_space (x t : str) :
  forallb is_space t = true -> rstrip (x ++ t) = rstrip x.
Proof.
  intro Ht. unfold rstrip. rewrite rev_app_distr, lstrip_app_space; [reflexivity |].
  rewrite forallb_rev. exact Ht.
Qed.

Lemma rstrip_app_nl (x d : str) :
  existsb nonspace d = true -> rstrip (x ++ ch_nl :: d) = x ++ ch_nl :: rstrip d.
Proof.
  intro Hd. unfold rstrip. rewrite rev_app_distr. simpl.
  rewrite <- app_assoc, lstrip_app_nonspace by (rewrite existsb_rev; exact Hd).
  rewrite rev_app_distr. simpl. rewrite rev_involutive, <- app_assoc. reflexivity.
Qed.

Lemma split_on_app (c : ascii) (x y : str) :
  ~ In c x -> split_on c (x ++ c :: y) = x :: split_on c y.
Proof.
  induction x as [|a x IH]; intro Hn; simpl.
  - rewrite Ascii.eqb_refl. reflexivity.
  - destruct (Ascii.eqb a c) eqn:E.
    + apply Ascii.eqb_eq in E. subst. exfalso. apply Hn. left. reflexivity.
    + rewrite IH by (intro Hin; apply Hn; right; exact Hin). reflexivity.
Qed.

Lemma split_on_no_sep (c : ascii) (x : str) : ~ In c x -> split_on c x = [x].
Proof.
  induction x as [|a x IH]; intro Hn; simpl; [reflexivity |].
  destruct (Ascii.eqb a c) eqn:E.
  - apply Ascii.eqb_eq in E. subst. exfalso. apply Hn. left. reflexivity.
  - rewrite IH by (intro Hin; apply Hn; right; exact Hin). reflexivity.
Qed.

Lemma split_on_join (c : ascii) (h : str) (t : list str) :
  Forall (fun x => ~ In c x) (h :: t) -> split_on c (str_join c (h :: t)) = h :: t.
Proof.
  revert h. induction t as [|h2 t IH]; intros h Hf; inversion Hf as [|? ? Hh Ht]; subst.
  - simpl. apply split_on_no_sep. exact Hh.
  - change (str_join c (h :: h2 :: t)) with (h ++ c :: str_join c (h2 :: t)).
    rewrite split_on_app by exact Hh. rewrite IH by exact Ht. reflexivity.
Qed.

Lemma in_join (c : ascii) (hs : list str) (x : ascii) :
  In x (str_join c hs) -> x = c \/ exists h, In h hs /\ In x h.
Proof.
  induction hs as [|h [|h2 t] IH]; simpl; [tauto | |].
  - intro Hx. right. exists h. auto.
  - intro Hx. apply in_app_or in Hx as [Hx|[Hx|Hx]].
    + right. exists h. auto.
    + left. auto.
    + destruct (IH Hx) as [E|[h' [Hh' Hx']]]; [left; exact E | right; exists h'; auto].
Qed.

Lemma strip_lstrip (h : str) : strip (lstrip h) = strip h.
Proof.
  unfold strip. f_equal.
  induction h as [|c h IH]; simpl; [reflexivity |].
  destruct (is_space c) eqn:E; [exact IH | simpl; rewrite E; reflexivity].
Qed.

Lemma pad_space (p : str) : forallb pad_char p = true -> forallb is_space p = true.
Proof.
  induction p as [|c p IH]; simpl; [reflexivity |].
  unfold pad_char at 1. destruct (is_space c); simpl; [| discriminate].
  intro H. apply andb_prop in H as [_ H]. exact (IH H).
Qed.

Lemma strip_padded (h h' : str) : padded_cell h h' -> strip h' = strip h.
Proof.
  intros [l [r [-> Hp]]]. rewrite forallb_app in Hp.
  apply andb_prop in Hp as [Hl Hr]. apply pad_space in Hl, Hr.
  unfold strip. rewrite lstrip_app_space by exact Hl.
  destruct (forallb is_space h) eqn:Eh.
  - rewrite lstrip_app_space, !lstrip_all_space by assumption. reflexivity.
  - rewrite lstrip_app_nonspace by (apply forallb_nonspace_false; exact Eh).
    apply rstrip_app_space. exact Hr.
Qed.

Lemma find_year_col_ext (l1 l2 : list str) :
  map is_year_header l1 = map is_year_header l2 ->
  forall i, find_year_col_from i l1 = find_year_col_from i l2.
Proof.
  revert l2. induction l1 as [|a l1 IH]; intros [|b l2] H i; simpl in H |- *;
    try discriminate H; [reflexivity |].
  injection H as Hab Hl. rewrite Hab. destruct (is_year_header b); [reflexivity |].
  apply IH. exact Hl.
Qed.

Lemma forallb_space_existsb (a : str) : forallb is_space a = negb (existsb nonspace a).
Proof.
  induction a as [|c a IH]; simpl; [reflexivity |].
  unfold nonspace at 1. destruct (is_space c); simpl; [exact IH | reflexivity].
Qed.

Lemma split_on_nonempty (c : ascii) (s : str) : split_on c s <> [].
Proof.
  induction s as [|x s IH]; simpl; [discriminate |].
  destruct (Ascii.eqb x c); [discriminate |].
  destruct (split_on c s); discriminate.
Qed.

Lemma no_char_join (c x : ascii) (hs : list str) :
  x <> c -> Forall (fun h => ~ In x h) hs -> ~ In x (str_join c hs).
Proof.
  intros Hxc Hf Hin. apply in_join in Hin as [E|[h [Hh Hx]]]; [exact (Hxc E) |].
  exact (proj1 (Forall_forall _ _) Hf h Hh Hx).
Qed.

Lemma padded_no_char (c : ascii) (h h' : str) :
  pad_char c = false -> padded_cell h h' -> ~ In c h -> ~ In c h'.
Proof.
  intros Hc [l [r [-> Hp]]] Hn Hin.
  assert (Hlr : In c (l ++ r) -> False).
  { intro H. apply forallb_forall with (x := c) in Hp; [congruence | exact H]. }
  apply in_app_or in Hin as [H|H]; [apply Hlr, in_or_app; left; exact H |].
  apply in_app_or in H as [H|H]; [exact (Hn H) | apply Hlr, in_or_app; right; exact H].
Qed.

Lemma existsb_nonspace_padded (h h' : str) :
  padded_cell h h' -> existsb nonspace h' = existsb nonspace h.
Proof.
  intros [l [r [-> Hp]]]. rewrite forallb_app in Hp.
  apply andb_prop in Hp as [Hl Hr]. apply pad_space in Hl, Hr.
  rewrite forallb_space_existsb in Hl, Hr. apply negb_true_iff in Hl, Hr.
  rewrite !existsb_app, Hl, Hr. simpl. rewrite orb_false_r. reflexivity.
Qed.

Lemma existsb_nonspace_join (h : str) (t : list str) :
  existsb nonspace (str_join ch_comma (h :: t)) =
  existsb nonspace h || match t with [] => false | _ => true end.
Proof.
  destruct t as [|h2 t]; simpl; [rewrite orb_false_r; reflexivity |].
  rewrite existsb_app. simpl. rewrite orb_true_r. reflexivity.
Qed.

Lemma lstrip_join (h : str) (t : list str) :
  lstrip (str_join ch_comma (h :: t)) = str_join ch_comma (lstrip h :: t).
Proof.
  destruct t as [|h2 t]; [reflexivity |].
  change (str_join ch_comma (h :: h2 :: t)) with (h ++ ch_comma :: str_join ch_comma (h2 :: t)).
  rewrite lstrip_app_cons_nonspace by reflexivity. reflexivity.
Qed.

Lemma no_char_lstrip (c : ascii) (h : str) : ~ In c h -> ~ In c (lstrip h).
Proof. intros Hn Hin. apply Hn, lstrip_incl, Hin. Qed.

Lemma no_char_rstrip (c : ascii) (h : str) : ~ In c h -> ~ In c (rstrip h).
Proof.
  intros Hn Hin. unfold rstrip in Hin. apply in_rev, lstrip_incl, in_rev in Hin.
  exact (Hn Hin).
Qed.

Lemma Forall2_padded_header (t t' : list str) :
  Forall2 padded_cell t t' ->
  Forall (fun h => ~ In ch_comma h /\ ~ In ch_nl h) t ->
  Forall (fun h => ~ In ch_comma h /\ ~ In ch_nl h) t'
  /\ map is_year_header t' = map is_year_header t.
Proof.
  induction 1 as [|h h' t t' Hp _ IH]; intros Hf; [split; [constructor | reflexivity] |].
  inversion Hf as [|? ? [Hc Hn] Hft]; subst.
  destruct (IH Hft) as [Hf' Hm]. split.
  - constructor; [| exact Hf'].
    split; apply (padded_no_char _ h); try assumption; reflexivity.
  - simpl. rewrite Hm. unfold is_year_header at 1. rewrite (strip_padded h h' Hp).
    reflexivity.
Qed.

(** C9. Adding whitespace (other than the line feed that ends the row) on
    either side of the cells of the header row leaves the extracted years
    unchanged: the header row is the text up to the first line feed, its
    cells hold no comma, and the rest of the export is unchanged. *)
Theorem header_whitespace_invariant (hs hs' : list str) (tail : str)
  (Hcells : Forall (fun h => ~ In ch_comma h /\ ~ In ch_nl h) hs)
  (Hpad : Forall2 padded_cell hs hs')
  (Htail : tail = [] \/ exists d, tail = ch_nl :: d) :
  years_of_text (str_join ch_comma hs' ++ tail) = years_of_text (str_join ch_comma hs ++ tail).
Proof.
  destruct Hpad as [| h0 h0' t t' Hp0 Hpt]; [reflexivity |].
  inversion Hcells as [|? ? [Hc0 Hn0] Hct]; subst.
  destruct (Forall2_padded_header t t' Hpt Hct) as [Hct' Hmap].
  assert (Hc0' : ~ In ch_comma h0') by (apply (padded_no_char _ h0); auto).
  assert (Hn0' : ~ In ch_nl h0') by (apply (padded_no_char _ h0); auto).
  assert (Hlen : match t' with [] => false | _ => true end
                 = match t with [] => false | _ => true end)
    by (destruct Hpt; reflexivity).
  assert (Hns : existsb nonspace (str_join ch_comma (h0' :: t'))
                = existsb nonspace (str_join ch_comma (h0 :: t)))
    by (rewrite !existsb_nonspace_join, Hlen, (existsb_nonspace_padded _ _ Hp0); reflexivity).
  unfold years_of_text, strip.
  destruct (existsb nonspace (str_join ch_comma (h0 :: t))) eqn:E.
  - (* the header row holds a visible character *)
    rewrite !lstrip_app_nonspace by congruence. rewrite !lstrip_join.
    set (X := str_join ch_comma (lstrip h0 :: t)).
    set (X' := str_join ch_comma (lstrip h0' :: t')).
    assert (HnX : ~ In ch_nl X).
    { apply no_char_join; [discriminate |].
      constructor; [apply no_char_lstrip; exact Hn0 |].
      eapply Forall_impl; [| exact Hct]. intros h [_ H]; exact H. }
    assert (HnX' : ~ In ch_nl X').
    { apply no_char_join; [discriminate |].
      constructor; [apply no_char_lstrip; exact Hn0' |].
      eapply Forall_impl; [| exact Hct']. intros h [_ H]; exact H. }
    destruct (forallb is_space tail) eqn:Et.
    + rewrite !rstrip_app_space by exact Et.
      rewrite !split_on_no_sep by (apply no_char_rstrip; assumption). reflexivity.
    + destruct Htail as [-> | [d ->]]; [discriminate Et |].
      assert (Hd : existsb nonspace d = true).
      { simpl in Et. rewrite forallb_space_existsb in Et.
        apply negb_false_iff in Et. exact Et. }
      rewrite !rstrip_app_nl by exact Hd.
      rewrite !split_on_app by assumption.
      pose proof (split_on_nonempty ch_nl (rstrip d)) as Hne.
      unfold years_of_lines.
      destruct (split_on ch_nl (rstrip d)) as [|l rest]; [contradiction Hne; reflexivity |].
      unfold X, X'. rewrite !split_on_join.
      * unfold year_col_index. rewrite (find_year_col_ext (lstrip h0' :: t') (lstrip h0 :: t));
          [reflexivity |].
        simpl. rewrite Hmap. f_equal. unfold is_year_header.
        rewrite !strip_lstrip, (strip_padded h0 h0' Hp0). reflexivity.
      * constructor; [apply no_char_lstrip; exact Hc0 |].
        eapply Forall_impl; [| exact Hct]. intros h [H _]; exact H.
      * constructor; [apply no_char_lstrip; exact Hc0' |].
        eapply Forall_impl; [| exact Hct']. intros h [H _]; exact H.
  - (* the header row is blank: the whole-text strip removes it *)
    assert (Hs : forallb is_space (str_join ch_comma (h0 :: t)) = true)
      by (rewrite forallb_space_existsb, E; reflexivity).
    assert (Hs' : forallb is_space (str_join ch_comma (h0' :: t')) = true)
      by (rewrite forallb_space_existsb, Hns; reflexivity).
    rewrite !lstrip_app_space by assumption. reflexivity.
Qed.

Ltac not_in_lit :=
  let H := fresh "H" in
  intro H; simpl in H; repeat (destruct H as [H|H]; [discriminate H |]); exact H.

Lemma header_whitespace_invariant_witness :
  years_of_text (str_join ch_comma [lit " Entity"; lit "Code "; lit "  Year   "; lit "value"]
                 ++ ch_nl :: lit "France,FRA,1990,1")
  = years_of_text (str_join ch_comma [lit "Entity"; lit "Code"; lit "Year"; lit "value"]
                   ++ ch_nl :: lit "France,FRA,1990,1")
  /\ years_of_text (str_join ch_comma [lit "Entity"; lit "Code"; lit "Year"; lit "value"]
                    ++ ch_nl :: lit "France,FRA,1990,1") = Some [1990%Z].
Proof.
  split; [| vm_compute; reflexivity].
  apply header_whitespace_invariant.
  - repeat constructor; not_in_lit.
  - repeat constructor.
    + exists (lit " "), []. split; reflexivity.
    + exists [], (lit " "). split; reflexivity.
    + exists (lit "  "), (lit "   "). split; reflexivity.
    + exists [], []. split; reflexivity.
  - right. eexists. reflexivity.
Defined.

(** ** C5: pagination of the inventory *)

Lemma page_size_pos : (0 < page_size)%nat.
Proof. unfold page_size. lia. Qed.

Lemma sql_pages_step_full (net_page : nat -> option page) (total_count : json)
  (off : nat) (cols : list str)
  (acc : list (list (str * json))) (fuel : nat) (p : page) :
  progress_raises total_count = false ->
  net_page off = Some p -> List.length (rows p) = page_size ->
  sql_pages net_page total_count (S fuel) off cols acc
  = sql_pages net_page total_count fuel (off + page_size)
      (if (off =? 0)%nat then columns p else cols)
      (acc ++ page_charts (if (off =? 0)%nat then columns p else cols) p).
Proof.
  intros Hc Hp Hlen. cbn [sql_pages]. rewrite Hp. unfold page_charts.
  destruct (rows p) as [|r rs].
  - pose proof page_size_pos. simpl in Hlen. lia.
  - cbv beta iota zeta. rewrite Hc, Hlen, Nat.ltb_irrefl. reflexivity.
Qed.

Lemma sql_pages_full (net_page : nat -> option page) (total_count : json) (ps : list page) :
  progress_raises total_count = false ->
  forall off cols acc fuel, (0 < off)%nat ->
  (forall i p, nth_error ps i = Some p ->
     net_page (off + i * page_size)%nat = Some p /\ List.length (rows p) = page_size) ->
  sql_pages net_page total_count (List.length ps + fuel) off cols acc
  = sql_pages net_page total_count fuel (off + List.length ps * page_size) cols
      (acc ++ flat_map (page_charts cols) ps).
Proof.
  intro Hc.
  induction ps as [|p ps IH]; intros off cols acc fuel Hoff Hps.
  - simpl. rewrite Nat.add_0_r, app_nil_r. reflexivity.
  - destruct (Hps 0%nat p eq_refl) as [Hp Hlen]. rewrite Nat.add_0_r in Hp.
    simpl List.length. rewrite Nat.add_succ_l.
    rewrite (sql_pages_step_full net_page total_count off cols acc _ p Hc Hp Hlen).
    assert (Hoff0 : (off =? 0)%nat = false) by (apply Nat.eqb_neq; lia).
    rewrite Hoff0. rewrite IH.
    + f_equal; [rewrite Nat.mul_succ_l; lia |].
      rewrite <- app_assoc. reflexivity.
    + lia.
    + intros i q Hq. destruct (Hps (S i) q Hq) as [Hq1 Hq2]. split; [| exact Hq2].
      rewrite <- Hq1. f_equal. rewrite Nat.mul_succ_l. lia.
Qed.

Lemma sql_pages_stop (net_page : nat -> option page) (total_count : json) (off : nat)
  (cols : list str) (acc : list (list (str * json))) (fuel : nat) :
  match net_page off with None => True | Some p => (List.length (rows p) < page_size)%nat end ->
  sql_pages net_page total_count (S fuel) off cols acc
  = Some (acc ++ match net_page off with
                 | Some p => page_charts (if (off =? 0)%nat then columns p else cols) p
                 | None => []
                 end).
Proof.
  intros Hs. cbn [sql_pages].
  destruct (net_page off) as [p|]; [| rewrite app_nil_r; reflexivity].
  unfold page_charts. destruct (rows p) as [|r rs].
  - rewrite app_nil_r. reflexivity.
  - cbv beta iota zeta. apply Nat.ltb_lt in Hs. rewrite Hs.
    destruct (progress_raises total_count); reflexivity.
Qed.

Lemma sql_pages_progress_raises (net_page : nat -> option page) (total_count : json)
  (fuel : nat) :
  progress_raises total_count = true ->
  sql_pages net_page total_count (S fuel) 0 [] []
  = Some (match net_page 0%nat with Some p => page_charts (columns p) p | None => [] end).
Proof.
  intros Hc. cbn [sql_pages].
  destruct (net_page 0%nat) as [p|]; [| reflexivity].
  unfold page_charts. destruct (rows p) as [|r rs]; [reflexivity |].
  cbv beta iota zeta. rewrite Hc. reflexivity.
Qed.




(** * Further properties of the code *)

(** ** The years of an export *)

Lemma add_year_In (y x : Z) (ys : list Z) : In x (add_year y ys) <-> x = y \/ In x ys.
Proof.
  unfold add_year. destruct (existsb (Z.eqb y) ys) eqn:E.
  - apply existsb_exists in E as [z [Hz Hyz]]. apply Z.eqb_eq in Hyz. subst z.
    split; [tauto |]. intros [->|H]; assumption.
  - rewrite in_app_iff. simpl. split.
    + intros [H|[H|[]]]; [right; exact H | left; symmetry; exact H].
    + intros [H|H]; [right; left; symmetry; exact H | left; exact H].
Qed.

Lemma NoDup_snoc {A} (l : list A) (x : A) : NoDup l -> ~ In x l -> NoDup (l ++ [x]).
Proof.
  induction l as [|a l IH]; simpl; intros Hl Hx.
  - constructor; [intros [] | constructor].
  - inversion Hl as [|? ? Ha Hl']; subst. constructor.
    + rewrite in_app_iff. intros [H|[H|[]]]; [exact (Ha H) | apply Hx; left; symmetry; exact H].
    + apply IH; [exact Hl' | intro H; apply Hx; right; exact H].
Qed.

Lemma add_year_NoDup (y : Z) (ys : list Z) : NoDup ys -> NoDup (add_year y ys).
Proof.
  intros H. unfold add_year. destruct (existsb (Z.eqb y) ys) eqn:E; [exact H |].
  apply NoDup_snoc; [exact H |]. intro Hin.
  assert (Hex : existsb (Z.eqb y) ys = true)
    by (apply existsb_exists; exists y; split; [exact Hin | apply Z.eqb_refl]).
  congruence.
Qed.

Lemma collect_years_spec (idx : nat) (lines : list str) :
  forall acc ys, collect_years idx lines acc = Some ys -> NoDup acc ->
  NoDup ys /\
  (forall y, In y ys <-> In y acc \/
     exists line, In line lines /\ (idx < List.length (split_on ch_comma line))%nat
       /\ year_of_cell (nth idx (split_on ch_comma line) []) = CYear y).
Proof.
  induction lines as [|line rest IH]; simpl; intros acc ys H Hnd.
  - injection H as <-. split; [exact Hnd |]. intro y. split; [tauto |].
    intros [H|(l & [] & _)]. exact H.
  - destruct (idx <? List.length (split_on ch_comma line))%nat eqn:El.
    + apply Nat.ltb_lt in El.
      destruct (year_of_cell (nth idx (split_on ch_comma line) [])) as [y0| |] eqn:Ec;
        [| | discriminate H].
      * destruct (IH _ _ H (add_year_NoDup y0 acc Hnd)) as [Hn Hi].
        split; [exact Hn |]. intro y. rewrite Hi, add_year_In. split.
        -- intros [[->|Ha]|(l & Hl & Hl1 & Hl2)]; [right | left; exact Ha |].
           ++ exists line. split; [left; reflexivity | split; [exact El | exact Ec]].
           ++ right. exists l. split; [right; exact Hl | split; assumption].
        -- intros [Ha|(l & [<-|Hl] & Hl1 & Hl2)]; [left; right; exact Ha | |].
           ++ left; left. rewrite Ec in Hl2. injection Hl2 as ->. reflexivity.
           ++ right. exists l. split; [exact Hl | split; assumption].
      * destruct (IH _ _ H Hnd) as [Hn Hi]. split; [exact Hn |]. intro y. rewrite Hi.
        split.
        -- intros [Ha|(l & Hl & Hl1 & Hl2)]; [left; exact Ha |].
           right. exists l. split; [right; exact Hl | split; assumption].
        -- intros [Ha|(l & [<-|Hl] & Hl1 & Hl2)]; [left; exact Ha | |].
           ++ rewrite Ec in Hl2. discriminate Hl2.
           ++ right. exists l. split; [exact Hl | split; assumption].
    + apply Nat.ltb_ge in El.
      destruct (IH _ _ H Hnd) as [Hn Hi]. split; [exact Hn |]. intro y. rewrite Hi.
      split.
      * intros [Ha|(l & Hl & Hl1 & Hl2)]; [left; exact Ha |].
        right. exists l. split; [right; exact Hl | split; assumption].
      * intros [Ha|(l & [<-|Hl] & Hl1 & Hl2)]; [left; exact Ha | lia |].
        right. exists l. split; [exact Hl | split; assumption].
Qed.

Lemma collect_years_none (idx : nat) (lines : list str) :
  forall acc, collect_years idx lines acc = None <->
  exists line, In line lines /\ (idx < List.length (split_on ch_comma line))%nat
    /\ year_of_cell (nth idx (split_on ch_comma line) []) = CRaise.
Proof.
  induction lines as [|line rest IH]; simpl; intro acc.
  - split; [discriminate | intros (l & [] & _)].
  - destruct (idx <? List.length (split_on ch_comma line))%nat eqn:El.
    + apply Nat.ltb_lt in El.
      destruct (year_of_cell (nth idx (split_on ch_comma line) [])) as [y0| |] eqn:Ec.
      * rewrite IH. split.
        -- intros (l & Hl & H1 & H2). exists l. split; [right; exact Hl | split; assumption].
        -- intros (l & [<-|Hl] & H1 & H2); [rewrite Ec in H2; discriminate H2 |].
           exists l. split; [exact Hl | split; assumption].
      * rewrite IH. split.
        -- intros (l & Hl & H1 & H2). exists l. split; [right; exact Hl | split; assumption].
        -- intros (l & [<-|Hl] & H1 & H2); [rewrite Ec in H2; discriminate H2 |].
           exists l. split; [exact Hl | split; assumption].
      * split; [intros _ | reflexivity].
        exists line. split; [left; reflexivity | split; [exact El | exact Ec]].
    + apply Nat.ltb_ge in El. rewrite IH. split.
      * intros (l & Hl & H1 & H2). exists l. split; [right; exact Hl | split; assumption].
      * intros (l & [<-|Hl] & H1 & H2); [lia |].
        exists l. split; [exact Hl | split; assumption].
Qed.

Lemma year_of_cell_raise (cell : str) :
  year_of_cell cell = CRaise <->
  exists neg, py_float (split_date_str (strip cell)) = Some (PInf neg).
Proof.
  unfold year_of_cell. destruct (py_float (split_date_str (strip cell))) as [f|].
  - destruct f as [m e|neg|]; simpl.
    + split; [| intros [neg H]; discriminate H].
      destruct (0 <=? e)%Z; discriminate.
    + split; [intros _; exists neg; reflexivity | reflexivity].
    + split; [discriminate | intros [neg H]; discriminate H].
  - split; [discriminate | intros [neg H]; discriminate H].
Qed.

(** X1. When [fetch_chart_data_years] parses an export without raising, the
    years it returns have no duplicates and are exactly the years read from
    the data lines (all lines after the first) that have a cell at the year
    column: the first header equal to year, time or date after stripping
    and lowering, else column 2. An export of fewer than two lines gives no
    year. *)
Theorem years_of_text_exact (text : str) :
  let lines := split_on ch_nl (strip text) in
  let idx := year_col_index (split_on ch_comma (hd [] lines)) in
  match years_of_text text with
  | Some ys =>
      NoDup ys /\
      (forall y, In y ys <->
         exists line, In line (tl lines) /\ (idx < List.length (split_on ch_comma line))%nat
           /\ year_of_cell (nth idx (split_on ch_comma line) []) = CYear y)
  | None => True
  end.
Proof.
  cbv zeta. unfold years_of_text, years_of_lines.
  destruct (split_on ch_nl (strip text)) as [|h [|l data]]; cbn [hd tl].
  - split; [constructor |]. intro y. split; [intros [] | intros (? & [] & _)].
  - split; [constructor |]. intro y. split; [intros [] | intros (? & [] & _)].
  - destruct (collect_years (year_col_index (split_on ch_comma h)) (l :: data) []) as [ys|] eqn:E; [| exact I].
    destruct (collect_years_spec _ _ _ _ E (NoDup_nil _)) as [Hn Hi].
    split; [exact Hn |]. intro y. rewrite Hi. simpl. split; [intros [[]|H]; exact H | tauto].
Qed.

(** X2. [fetch_chart_data_years] raises out of the year loop (an
    [OverflowError], which [except (ValueError, IndexError)] does not catch)
    exactly when some data line has, at the year column, a cell whose date
    part [float] reads as an infinity: ["inf"] or ["-Infinity"] in any
    case, or a literal beyond the double range such as ["1e400"]. *)
Theorem years_of_text_raises_iff (text : str) :
  let lines := split_on ch_nl (strip text) in
  let idx := year_col_index (split_on ch_comma (hd [] lines)) in
  years_of_text text = None <->
  exists line, In line (tl lines) /\ (idx < List.length (split_on ch_comma line))%nat
    /\ exists neg, py_float (split_date_str (strip (nth idx (split_on ch_comma line) [])))
                   = Some (PInf neg).
Proof.
  cbv zeta. unfold years_of_text, years_of_lines.
  destruct (split_on ch_nl (strip text)) as [|h [|l data]]; cbn [hd tl].
  - split; [discriminate | intros (? & [] & _)].
  - split; [discriminate | intros (? & [] & _)].
  - rewrite collect_years_none. simpl.
    split; intros (line & Hl & H1 & H2); exists line;
      (split; [exact Hl | split; [exact H1 | apply year_of_cell_raise; exact H2]]).
Qed.

(** ** The CSV cache *)

Lemma universal_newlines_no_cr (s : str) : ~ In ch_cr (universal_newlines s).
Proof.
  assert (G : forall n s, (List.length s <= n)%nat -> ~ In ch_cr (universal_newlines s)).
  { induction n as [|n IH]; intros [|c r] Hl; cbn [universal_newlines]; try (intros []).
    - cbn [List.length] in Hl. lia.
    - cbn [List.length] in Hl. destruct (Ascii.eqb c ch_cr) eqn:E.
      + intros [Hc|Hin]; [discriminate Hc |].
        destruct r as [|d r']; [destruct Hin |].
        destruct (Ascii.eqb d ch_nl).
        * refine (IH r' _ Hin). cbn [List.length] in Hl. lia.
        * refine (IH (d :: r') _ Hin). lia.
      + intros [Hc|Hin].
        * subst c. discriminate E.
        * refine (IH r _ Hin). lia. }
  exact (G _ s (le_n _)).
Qed.

Lemma universal_newlines_id (s : str) : ~ In ch_cr s -> universal_newlines s = s.
Proof.
  induction s as [|c r IH]; intro Hn; [reflexivity |]. cbn [universal_newlines].
  destruct (Ascii.eqb c ch_cr) eqn:E.
  - apply Ascii.eqb_eq in E. subst c. destruct Hn. left. reflexivity.
  - f_equal. apply IH. intro Hin. apply Hn. right. exact Hin.
Qed.

Lemma universal_newlines_idem (s : str) :
  universal_newlines (universal_newlines s) = universal_newlines s.
Proof. apply universal_newlines_id, universal_newlines_no_cr. Qed.

(** X3. Once [fetch_csv_data] has returned a text [t] for a slug, fetched
    or read, every later call for that slug reads it back from the cache
    file without any request, as [t] with each ["\r\n"] and lone ["\r"]
    turned into ["\n"]: that is [t] itself exactly when [t] holds no
    ["\r"], and it no longer changes on further reads. A failed download
    leaves the empty text cached for good, even when the network would
    answer later. *)
Theorem fetch_csv_data_cached (net net' : str -> option str) (slug : str)
  (w w1 : world) (t : str) (H : fetch_csv_data net slug w = (Some t, w1)) :
  fetch_csv_data net' slug w1 = (Some (universal_newlines t), log (DiskRead slug) w1)
  /\ (universal_newlines t = t <-> ~ In ch_cr t)
  /\ universal_newlines (universal_newlines t) = universal_newlines t.
Proof.
  split; [| split; [| apply universal_newlines_idem]].
  - unfold fetch_csv_data in *. destruct (disk w slug) as [c|] eqn:Ed.
    + injection H as <- <-. cbn [disk log]. rewrite Ed, universal_newlines_idem.
      reflexivity.
    + injection H as <- <-. cbn [disk log disk_write]. rewrite str_eqb_refl. reflexivity.
  - split; [| apply universal_newlines_id].
    intro He. rewrite <- He. apply universal_newlines_no_cr.
Qed.

Lemma fetch_csv_data_cached_witness :
  fetch_csv_data (fun _ => None) (lit "s") empty_world
    = (Some [], snd (fetch_csv_data (fun _ => None) (lit "s") empty_world))
  /\ fetch_csv_data net_two_years (lit "s")
       (snd (fetch_csv_data (fun _ => None) (lit "s") empty_world))
     = (Some [], log (DiskRead (lit "s"))
                   (snd (fetch_csv_data (fun _ => None) (lit "s") empty_world))).
Proof.
  assert (H : fetch_csv_data (fun _ => None) (lit "s") empty_world
    = (Some [], snd (fetch_csv_data (fun _ => None) (lit "s") empty_world)))
    by reflexivity.
  split; [exact H |].
  exact (proj1 (fetch_csv_data_cached (fun _ => None) net_two_years (lit "s")
                  empty_world _ [] H)).
Defined.

(** ** The dimension fallback *)

Lemma str_eqb_sym (a b : str) : str_eqb a b = str_eqb b a.
Proof.
  destruct (str_eqb a b) eqn:E, (str_eqb b a) eqn:E'; try reflexivity.
  - apply str_eqb_eq in E. subst. rewrite str_eqb_refl in E'. discriminate.
  - apply str_eqb_eq in E'. subst. rewrite str_eqb_refl in E. discriminate.
Qed.

Lemma py_eq_scalar_sym (a b : json) : py_eq_scalar a b = py_eq_scalar b a.
Proof.
  unfold py_eq_scalar. destruct (num_of a), (num_of b); try reflexivity.
  - apply Z.eqb_sym.
  - destruct a, b; try reflexivity. apply str_eqb_sym.
Qed.

Lemma ForallOrdPairs_snoc {A} (R : A -> A -> Prop) (l : list A) (x : A) :
  ForallOrdPairs R l -> Forall (fun a => R a x) l -> ForallOrdPairs R (l ++ [x]).
Proof.
  induction l as [|a l IH]; simpl; intros Hp Hx.
  - constructor; constructor.
  - inversion Hp as [|? ? Ha Hl]; subst. inversion Hx as [|? ? Hax Hlx]; subst.
    constructor.
    + apply Forall_app. split; [exact Ha | constructor; [exact Hax | constructor]].
    + exact (IH Hl Hlx).
Qed.

Lemma py_dedup_fold (P : json -> Prop) (l : list json) :
  forall acc,
  ForallOrdPairs (fun a b => py_eq_scalar a b = false) acc -> Forall P acc -> Forall P l ->
  let r := fold_left (fun acc x => if existsb (py_eq_scalar x) acc then acc else acc ++ [x])
             l acc in
  ForallOrdPairs (fun a b => py_eq_scalar a b = false) r /\ Forall P r.
Proof.
  induction l as [|x l IH]; simpl; intros acc Hp Ha Hl; [split; assumption |].
  inversion Hl as [|? ? Hx Hl']; subst.
  destruct (existsb (py_eq_scalar x) acc) eqn:E; apply IH; try assumption.
  - apply ForallOrdPairs_snoc; [exact Hp |].
    apply Forall_forall. intros a Hin. rewrite py_eq_scalar_sym.
    destruct (py_eq_scalar x a) eqn:Exa; [| reflexivity].
    assert (existsb (py_eq_scalar x) acc = true)
      by (apply existsb_exists; exists a; split; assumption).
    congruence.
  - apply Forall_app. split; [exact Ha | constructor; [exact Hx | constructor]].
Qed.

Lemma year_ids_values (ys vs : list json) :
  year_ids ys = Some vs ->
  Forall (fun v => match v with
                   | JInt _ | JBool _ => True
                   | JStr s => ~ In ch_minus s
                   | _ => False
                   end) vs.
Proof.
  revert vs. induction ys as [|y r IH]; simpl; intros vs H.
  - injection H as <-. constructor.
  - destruct (py_contains_str _ y) as [[|]|]; [| exact (IH _ H) | discriminate H].
    destruct y; try discriminate H.
    destruct (split_date (obj_get kvs _)) as [v|] eqn:Es; [| discriminate H].
    destruct (year_ids r) as [vs'|]; [| discriminate H].
    injection H as <-. constructor; [| exact (IH _ eq_refl)].
    destruct (obj_get kvs _); simpl in Es; try discriminate Es;
      injection Es as <-; [exact I | exact I | apply split_date_str_no_minus].
Qed.

Lemma try_with_dimensions_shape (net_meta : json -> option json) (d : json) (ys : list json) :
  try_with_dimensions net_meta d = Some ys ->
  ys = [] \/ exists yi vs, year_ids yi = Some vs /\ ys = py_dedup vs.
Proof.
  unfold try_with_dimensions. intro H.
  repeat (match type of H with
          | context [match ?x with _ => _ end] => let E := fresh "E" in
                                                 destruct x eqn:E; try discriminate H
          end).
  all: injection H as <-; first [left; reflexivity | right; eauto].
Qed.

(** X4. The years [try_with_dimensions] returns hold no two values equal
    for Python's [==], and each is an [int] (or [bool]) or a [str] with no
    ["-"]: a string id is cut at its first ["-"] by [split_date]. *)
Theorem try_with_dimensions_distinct (net_meta : json -> option json) (dims : json) :
  match try_with_dimensions net_meta dims with
  | Some ys =>
      ForallOrdPairs (fun a b => py_eq_scalar a b = false) ys /\
      Forall (fun v => match v with
                       | JInt _ | JBool _ => True
                       | JStr s => ~ In ch_minus s
                       | _ => False
                       end) ys
  | None => True
  end.
Proof.
  destruct (try_with_dimensions net_meta dims) as [ys|] eqn:E; [| exact I].
  destruct (try_with_dimensions_shape _ _ _ E) as [->|(yi & vs & Hv & ->)].
  - split; constructor.
  - unfold py_dedup. apply py_dedup_fold; [constructor | constructor |].
    exact (year_ids_values _ _ Hv).
Qed.

Lemma dims_y_variable_no_y (dims : list json) :
  Forall (fun d => exists kvs, d = JObj kvs
            /\ hashable (obj_get kvs (lit "property")) = true
            /\ json_is_str (obj_get kvs (lit "property")) (lit "y") = false) dims ->
  forall acc, dims_y_variable dims acc = Some acc.
Proof.
  induction dims as [|d r IH]; intros Hd acc; [reflexivity |].
  cbn [dims_y_variable].
  inversion Hd as [|? ? (kvs & -> & Hh & Hy) Hr]; subst. cbn [py_contains_str].
  destruct (obj_has kvs (lit "variableId")); cbv beta iota; [| exact (IH Hr acc)].
  rewrite Hh, Hy. exact (IH Hr acc).
Qed.

(** X5. When every dimension is an object whose ["property"] is a hashable
    value other than ["y"], [try_with_dimensions] returns no year, whatever
    the indicator API would answer: it makes no request. *)
Theorem try_with_dimensions_no_y (net_meta : json -> option json) (dims : list json)
  (Hd : Forall (fun d => exists kvs, d = JObj kvs
            /\ hashable (obj_get kvs (lit "property")) = true
            /\ json_is_str (obj_get kvs (lit "property")) (lit "y") = false) dims) :
  try_with_dimensions net_meta (JArr dims) = Some [].
Proof.
  unfold try_with_dimensions. destruct dims as [|d r]; [reflexivity |].
  simpl negb. cbv iota. simpl py_iter. cbv iota.
  rewrite (dims_y_variable_no_y _ Hd JNull). reflexivity.
Qed.

Lemma try_with_dimensions_no_y_witness :
  Forall (fun d => exists kvs, d = JObj kvs
            /\ hashable (obj_get kvs (lit "property")) = true
            /\ json_is_str (obj_get kvs (lit "property")) (lit "y") = false)
    [JObj [(lit "property", JStr (lit "x")); (lit "variableId", JInt 923410)]]
  /\ try_with_dimensions (fun _ => Some (JObj [])) 
       (JArr [JObj [(lit "property", JStr (lit "x")); (lit "variableId", JInt 923410)]])
     = Some [].
Proof.
  assert (Hd : Forall (fun d => exists kvs, d = JObj kvs
            /\ hashable (obj_get kvs (lit "property")) = true
            /\ json_is_str (obj_get kvs (lit "property")) (lit "y") = false)
    [JObj [(lit "property", JStr (lit "x")); (lit "variableId", JInt 923410)]]).
  { constructor; [| constructor]. eexists. split; [reflexivity | split; reflexivity]. }
  split; [exact Hd | exact (try_with_dimensions_no_y _ _ Hd)].
Defined.

(** ** The map information of a configuration *)

Lemma obj_has_false_get (kvs : list (str * json)) (k : str) :
  obj_has kvs k = false -> obj_get kvs k = JNull.
Proof. unfold obj_has, obj_get. destruct (obj_lookup kvs k); congruence. Qed.

(** X6. [parse_config_for_map_info] raises exactly when the configuration
    is not an object, or has a ["map"] member that is not an object (for
    instance [null]). When it returns, [has_timeline] is false exactly when
    the ["map"] object has a truthy ["hideTimeline"], and [default_tab] is
    [None] or ["map"], never another tab, and [None] whenever [has_map_tab]
    is false. *)
Theorem parse_config_for_map_info_cases :
  (forall config,
     parse_config_for_map_info config = None <->
     match config with
     | JObj kvs => obj_has kvs (lit "map") = true /\ (forall m, obj_get kvs (lit "map") <> JObj m)
     | _ => True
     end)
  /\ (forall kvs mi, parse_config_for_map_info (JObj kvs) = Some mi ->
        (has_timeline mi = false <->
           exists m, obj_get kvs (lit "map") = JObj m
             /\ truthy (obj_get m (lit "hideTimeline")) = true)
        /\ (default_tab mi = JNull \/ default_tab mi = JStr (lit "map"))
        /\ (has_map_tab mi = false -> default_tab mi = JNull)).
Proof.
  split.
  - intro config. destruct config as [| | | | | |kvs]; try (split; reflexivity).
    unfold parse_config_for_map_info. cbv zeta.
    destruct (obj_has kvs (lit "map")) eqn:Eh.
    + destruct (obj_get kvs (lit "map")) eqn:Eg;
        try (split; [intros _; split; [reflexivity | intros ? Hm; discriminate Hm]
                    | intros _; reflexivity]).
      split; [intro H; cbv beta iota in H; discriminate H
             | intros [_ H]; destruct (H kvs0 eq_refl)].
    + split; [intro H; cbv beta iota in H; discriminate H | intros [H _]; discriminate H].
  - intros kvs mi H. unfold parse_config_for_map_info in H. cbv zeta in H.
    destruct (obj_has kvs (lit "map")) eqn:Eh.
    + destruct (obj_get kvs (lit "map")) as [| | | | | |m] eqn:Eg; try discriminate H.
      cbv beta iota in H. injection H as <-. cbn [has_timeline default_tab has_map_tab].
      split; [| split].
      * destruct (truthy (obj_get m _)) eqn:Et.
        -- split; [intros _; exists m; split; [reflexivity | exact Et] | reflexivity].
        -- split; [discriminate | intros (m' & Hm' & Ht)]. injection Hm' as <-. cbv [lit list_ascii_of_string] in Ht. congruence.
      * destruct (json_is_str (obj_get kvs _) _); [right | left]; reflexivity.
      * destruct (json_is_str (obj_get kvs _) _); [discriminate | reflexivity].
    + cbv beta iota in H. injection H as <-. cbn [has_timeline default_tab has_map_tab].
      split; [| split].
      * split; [discriminate | intros (m & Hm & _)].
        rewrite (obj_has_false_get _ _ Eh) in Hm. discriminate Hm.
      * destruct (json_is_str (obj_get kvs _) _); [right | left]; reflexivity.
      * destruct (json_is_str (obj_get kvs _) _); [discriminate | reflexivity].
Qed.

(** ** The single-year check *)

(** X7. [check_single_year_map] answers [(True, "-")], leaving the run's
    state untouched (no request, no cache access), exactly when the
    timeline is hidden or a map time is set. Otherwise it asks
    [fetch_chart_data_years] and answers [(True, 1)] for one year,
    [(False, n)] for [n > 1] years and [(None, 0)] for none, whatever the
    [max_time] and [min_time] of the map information: the bounds it looks
    up are keys that [parse_config_for_map_info] never sets. *)
Theorem check_single_year_map_cases (net_csv : str -> option str) (slug : str)
  (mi : map_info) (w : world) :
  (negb (has_timeline mi) || truthy (map_time mi) = true ->
     check_single_year_map net_csv slug mi w = (Some (JBool true, JStr (lit "-")), w))
  /\ (negb (has_timeline mi) || truthy (map_time mi) = false ->
      check_single_year_map net_csv slug mi w =
        match fetch_chart_data_years net_csv slug w with
        | (Some ys, w') =>
            (Some (if (List.length ys =? 1)%nat then (JBool true, JInt 1)
                   else if (1 <? List.length ys)%nat
                        then (JBool false, JInt (Z.of_nat (List.length ys)))
                   else (JNull, JInt 0)), w')
        | (None, w') => (None, w')
        end).
Proof.
  unfold check_single_year_map.
  destruct (has_timeline mi), (truthy (map_time mi)); cbn [negb orb];
    split; intro H; try discriminate H; try reflexivity.
  unfold bind, ret. cbn.
  destruct (fetch_chart_data_years net_csv slug w) as [[ys|] w']; [| reflexivity].
  destruct (List.length ys =? 1)%nat; [reflexivity |].
  destruct (List.length ys) as [|[|k]]; reflexivity.
Qed.

(** ** The classifier *)

Lemma py_extremum_max_int (c : Z) (r : list Z) :
  exists m, py_extremum (fun a b => py_lt b a) (JInt c) (map JInt r) = Some (JInt m)
    /\ In m (c :: r) /\ Forall (fun y => (y <= m)%Z) (c :: r).
Proof.
  revert c. induction r as [|x r IH]; intro c; simpl.
  - exists c. split; [reflexivity | split; [left; reflexivity | constructor; [lia | constructor]]].
  - destruct (c <? x)%Z eqn:E.
    + apply Z.ltb_lt in E. destruct (IH x) as (m & Hm & Hin & Hall).
      exists m. split; [exact Hm |]. inversion Hall as [|? ? Hx Hr]; subst.
      split.
      * destruct Hin as [<-|Hin]; [right; left; reflexivity | right; right; exact Hin].
      * constructor; [lia | constructor; [exact Hx | exact Hr]].
    + apply Z.ltb_ge in E. destruct (IH c) as (m & Hm & Hin & Hall).
      exists m. split; [exact Hm |]. inversion Hall as [|? ? Hc Hr]; subst.
      split.
      * destruct Hin as [<-|Hin]; [left; reflexivity | right; right; exact Hin].
      * constructor; [exact Hc | constructor; [lia | exact Hr]].
Qed.

Lemma py_extremum_min_int (c : Z) (r : list Z) :
  exists m, py_extremum py_lt (JInt c) (map JInt r) = Some (JInt m)
    /\ In m (c :: r) /\ Forall (fun y => (m <= y)%Z) (c :: r).
Proof.
  revert c. induction r as [|x r IH]; intro c; simpl.
  - exists c. split; [reflexivity | split; [left; reflexivity | constructor; [lia | constructor]]].
  - destruct (x <? c)%Z eqn:E.
    + apply Z.ltb_lt in E. destruct (IH x) as (m & Hm & Hin & Hall).
      exists m. split; [exact Hm |]. inversion Hall as [|? ? Hx Hr]; subst.
      split.
      * destruct Hin as [<-|Hin]; [right; left; reflexivity | right; right; exact Hin].
      * constructor; [lia | constructor; [exact Hx | exact Hr]].
    + apply Z.ltb_ge in E. destruct (IH c) as (m & Hm & Hin & Hall).
      exists m. split; [exact Hm |]. inversion Hall as [|? ? Hc Hr]; subst.
      split.
      * destruct Hin as [<-|Hin]; [left; reflexivity | right; right; exact Hin].
      * constructor; [exact Hc | constructor; [lia | exact Hr]].
Qed.

Lemma parse_config_for_map_info_object (config : json) :
  (exists kvs, config = JObj kvs
     /\ (obj_has kvs (lit "map") = false \/ exists m, obj_get kvs (lit "map") = JObj m)) ->
  exists mi, parse_config_for_map_info config = Some mi.
Proof.
  intros (kvs & -> & Hmap). unfold parse_config_for_map_info. cbv zeta.
  destruct Hmap as [Hn | (m & Hm)].
  - rewrite Hn. eexists. reflexivity.
  - destruct (obj_has kvs (lit "map")); [rewrite Hm |]; eexists; reflexivity.
Qed.

(** X8. When the configuration of a chart decodes to a JSON object whose
    ["map"] member, if any, is an object, and its export yields at least
    one year, [generate_chart_result] returns without raising, makes no
    request to the indicator API (the result is the same for any answer it
    would give), reports as [len_years] the number of distinct export
    years, and, for a falsy configuration bound, reports the largest export
    year as [max_time] and the smallest as [min_time]. *)
Theorem generate_chart_result_export_years (net_csv : str -> option str)
  (net_meta : json -> option json) (chart : chart_record) (w w1 : world)
  (config : json) (y : Z) (ys : list Z)
  (Hc : parse_chart_config_py (c_config chart) = Some config)
  (Hobj : exists kvs, config = JObj kvs
     /\ (obj_has kvs (lit "map") = false \/ exists m, obj_get kvs (lit "map") = JObj m))
  (Hy : fetch_chart_data_years net_csv (c_slug chart) w = (Some (y :: ys), w1)) :
  exists mi res,
    parse_config_for_map_info config = Some mi
    /\ generate_chart_result net_csv net_meta chart w = (Some res, w1)
    /\ res_len_years res = List.length (y :: ys)
    /\ (truthy (max_time mi) = false ->
        exists mx, res_max_time res = JInt mx /\ In mx (y :: ys)
                   /\ Forall (fun v => (v <= mx)%Z) (y :: ys))
    /\ (truthy (min_time mi) = false ->
        exists mn, res_min_time res = JInt mn /\ In mn (y :: ys)
                   /\ Forall (fun v => (mn <= v)%Z) (y :: ys)).
Proof.
  destruct (parse_config_for_map_info_object config Hobj) as [mi Hm].
  exists mi.
  destruct (py_extremum_max_int y ys) as (mx & Hmx & Hinx & Hallx).
  destruct (py_extremum_min_int y ys) as (mn & Hmn & Hinn & Halln).
  unfold generate_chart_result, bind, lift_opt, ret.
  rewrite Hc, Hm, Hy. cbn [map].
  unfold bound_or_years, py_max, py_min.
  destruct (truthy (max_time mi)) eqn:Ea, (truthy (min_time mi)) eqn:Eb.
  all: try rewrite Hmx; try rewrite Hmn.
  all: eexists; split; [reflexivity |]; split; [reflexivity |];
    cbn [res_len_years res_max_time res_min_time].
  all: split; [cbn [List.length]; rewrite length_map; reflexivity |].
  all: split; intro H; try discriminate H; eexists; (split; [reflexivity | split; assumption]).
Qed.

Lemma generate_chart_result_export_years_witness :
  exists res w1,
    generate_chart_result net_two_years no_metadata chart_zero_bounds empty_world = (Some res, w1)
    /\ res_len_years res = 2%nat.
Proof.
  destruct (generate_chart_result_export_years net_two_years no_metadata chart_zero_bounds
              empty_world _ _ 1990%Z [2000%Z] eq_refl
              ltac:(eexists; split; [reflexivity | left; reflexivity]) eq_refl)
    as (mi & res & _ & H1 & H2 & _).
  exists res. eexists. split; [exact H1 | exact H2].
Defined.

(** X9. Every row [generate_chart_result] returns keeps the chart's slug
    and its [isPublished] value as read from the inventory (no
    normalisation), reports [has_map_tab] as ["Yes"] or ["No"], and its URL
    is the Grapher page of the slug, followed by [?tab=map] exactly when
    [has_map_tab] is ["Yes"]. *)
Theorem generate_chart_result_row (net_csv : str -> option str)
  (net_meta : json -> option json) (chart : chart_record) (w w' : world)
  (res : chart_result)
  (H : generate_chart_result net_csv net_meta chart w = (Some res, w')) :
  res_slug res = c_slug chart
  /\ res_is_published res = c_isPublished chart
  /\ (res_has_map_tab res = lit "Yes" \/ res_has_map_tab res = lit "No")
  /\ res_url res = GRAPHER_BASE_URL ++ lit "/" ++ c_slug chart
                   ++ (if str_eqb (res_has_map_tab res) (lit "Yes") then lit "?tab=map" else []).
Proof.
  unfold generate_chart_result, bind, lift_opt, ret in H.
  repeat (match type of H with
          | context [match ?x with _ => _ end] => destruct x; try discriminate H
          end).
  all: injection H as <- <-; cbn [res_slug res_is_published res_has_map_tab res_url].
  all: assert (Hy : str_eqb (lit "Yes") (lit "Yes") = true) by reflexivity.
  all: assert (Hn : str_eqb (lit "No") (lit "Yes") = false) by reflexivity.
  all: rewrite ?Hy, ?Hn, ?app_nil_r, <- ?app_assoc.
  all: split; [reflexivity | split; [reflexivity |]].
  all: split; [first [left; reflexivity | right; reflexivity] | reflexivity].
Qed.

Lemma generate_chart_result_row_witness :
  exists res w',
    generate_chart_result net_two_years no_metadata chart_hidden_timeline empty_world = (Some res, w')
    /\ res_url res = lit "https://ourworldindata.org/grapher/s?tab=map".
Proof.
  destruct (generate_chart_result net_two_years no_metadata chart_hidden_timeline empty_world)
    as [[res|] w'] eqn:E; [| vm_compute in E; discriminate E].
  exists res, w'. split; [reflexivity |].
  destruct (generate_chart_result_row _ _ _ _ _ _ E) as (Hs & _ & Hm & Hu).
  rewrite Hu. destruct Hm as [Hm|Hm].
  - rewrite Hm. reflexivity.
  - vm_compute in E. injection E as <- _. discriminate Hm.
Defined.

(** ** The chart count *)

(** X10. [fetch_total_chart_count] never raises. It returns the first cell
    of the first row of the response; [0] when the response has no
    ["rows"] member; [None] when the request fails, when the response is
    not an object, or when ["rows"] is an empty list. *)
Theorem fetch_total_chart_count_cases :
  fetch_total_chart_count None = JNull
  /\ (forall data, (forall kvs, data <> JObj kvs) -> fetch_total_chart_count (Some data) = JNull)
  /\ (forall kvs, obj_lookup kvs (lit "rows") = None ->
        fetch_total_chart_count (Some (JObj kvs)) = JInt 0)
  /\ (forall kvs, obj_lookup kvs (lit "rows") = Some (JArr []) ->
        fetch_total_chart_count (Some (JObj kvs)) = JNull)
  /\ (forall kvs v r rs, obj_lookup kvs (lit "rows") = Some (JArr (JArr (v :: r) :: rs)) ->
        fetch_total_chart_count (Some (JObj kvs)) = v).
Proof.
  split; [reflexivity |]. split; [| split; [| split]].
  - intros data Hd. destruct data as [| | | | | |kvs]; try reflexivity.
    destruct (Hd kvs eq_refl).
  - intros kvs H. unfold fetch_total_chart_count, py_get_default. rewrite H. reflexivity.
  - intros kvs H. unfold fetch_total_chart_count, py_get_default. rewrite H. reflexivity.
  - intros kvs v r rs H. unfold fetch_total_chart_count, py_get_default. rewrite H. reflexivity.
Qed.

(** ** The first scanner *)

Lemma charts_of_lines_spec (lines : list str) :
  (List.length (charts_of_lines lines) <= List.length lines)%nat
  /\ forall c, In c (charts_of_lines lines) ->
     exists line, In line lines /\
       let values := split_on ch_comma line in
       (5 <= List.length values)%nat
       /\ g_id c = nth 0 values [] /\ g_slug c = nth 1 values []
       /\ g_title c = nth 2 values [] /\ g_type c = nth 3 values []
       /\ g_isPublished c = nth 4 values [].
Proof.
  induction lines as [|line rest [IHl IHc]]; cbn [charts_of_lines].
  - split; [constructor | intros c []].
  - destruct (5 <=? List.length (split_on ch_comma line))%nat eqn:E.
    + apply Nat.leb_le in E. split; [cbn [List.length]; lia |].
      intros c [<-|Hc].
      * exists line. split; [left; reflexivity |]. cbv zeta.
        repeat split; [exact E].
      * destruct (IHc c Hc) as (l & Hl & Hv). exists l. split; [right; exact Hl | exact Hv].
    + split; [cbn [List.length]; lia |].
      intros c Hc. destruct (IHc c Hc) as (l & Hl & Hv).
      exists l. split; [right; exact Hl | exact Hv].
Qed.


(** X12. When the inventory request of [scan_grapher_pages] fails, the
    scan raises (the fallback [KNOWN_MAP_CHARTS] holds tuples, and
    [chart["id"]] on a tuple is a [TypeError]) for every [max_charts] except
    a negative one of at least 6 in absolute value, which slices the list
    empty; [main]'s [max_charts=50] is among the raising ones. *)
Theorem scan_grapher_pages_request_failure (net_html : str -> option str)
  (max_charts : option Z) :
  scan_grapher_pages net_html None max_charts = None <->
  match max_charts with None => True | Some n => (-6 < n)%Z end.
Proof.
  unfold scan_grapher_pages.
  change (fetch_all_chart_ids None) with (ChartTuples KNOWN_MAP_CHARTS).
  destruct max_charts as [n|]; [| split; reflexivity].
  destruct (n =? 0)%Z eqn:E0.
  - apply Z.eqb_eq in E0. subst n. split; [intros _; lia | intros _; reflexivity].
  - apply Z.eqb_neq in E0. unfold py_slice_upto.
    change (List.length KNOWN_MAP_CHARTS) with 6%nat.
    destruct (0 <=? n)%Z eqn:E1.
    + apply Z.leb_le in E1.
      destruct (Z.to_nat n) as [|k] eqn:Ek; [lia |].
      split; [intros _; lia | intros _; reflexivity].
    + apply Z.leb_gt in E1.
      destruct (Z.to_nat (Z.of_nat 6 + n)) as [|k] eqn:Ek.
      * split; [discriminate | intro H; lia].
      * split; [intros _; lia | intros _; reflexivity].
Qed.

Lemma grapher_row_of_shape (net_html : str -> option str) (c : grapher_chart) :
  let r := grapher_row_of net_html c in
  gr_chart_id r = g_id c /\ gr_slug r = g_slug c /\ gr_is_published r = g_isPublished c
  /\ gr_single_year_data r = lit "To be checked"
  /\ (gr_has_map_tab r = lit "Yes" \/ gr_has_map_tab r = lit "No")
  /\ gr_url r = GRAPHER_BASE_URL ++ lit "/" ++ gr_slug r
                ++ (if str_eqb (gr_has_map_tab r) (lit "Yes") then lit "?tab=map" else []).
Proof.
  cbv zeta. unfold grapher_row_of. cbv zeta.
  destruct (check_map_tab_via_html net_html (g_slug c)); cbn [gr_chart_id gr_slug gr_is_published
    gr_single_year_data gr_has_map_tab gr_url].
  - split; [reflexivity |]. split; [reflexivity |]. split; [reflexivity |].
    split; [reflexivity |]. split; [left; reflexivity |].
    reflexivity.
  - split; [reflexivity |]. split; [reflexivity |]. split; [reflexivity |].
    split; [reflexivity |]. split; [right; reflexivity |].
    assert (H : str_eqb (lit "No") (lit "Yes") = false) by reflexivity.
    rewrite H, app_nil_r. reflexivity.
Qed.


Definition scan_inventory_response : json :=
  JObj [(lit "csv", JStr (lit "id,slug,title,type,isPublished
1,life-expectancy,Life expectancy,LineChart,true
2,population,Population,LineChart,false"))].


(** ** The unused check of the first scanner *)

Lemma collect_check_NoDup (idx : nat) (lines : list str) (acc : list Z) :
  NoDup acc -> NoDup (fst (collect_check idx lines acc)).
Proof.
  revert acc. induction lines as [|line rest IH]; intros acc Hacc; cbn [collect_check].
  - exact Hacc.
  - destruct (idx <? List.length (split_on ch_comma line))%nat; [| apply IH; exact Hacc].
    destruct (cell_year (nth idx (split_on ch_comma line) [])).
    + apply IH, add_year_NoDup, Hacc.
    + apply IH, Hacc.
    + exact Hacc.
Qed.

Lemma collect_check_raise (idx : nat) (lines : list str) (acc : list Z) :
  (exists line, In line lines /\ (idx < List.length (split_on ch_comma line))%nat
     /\ cell_year (nth idx (split_on ch_comma line) []) = CRaise) ->
  snd (collect_check idx lines acc) = true.
Proof.
  revert acc. induction lines as [|line rest IH]; intros acc (l & Hin & Hlt & Hc);
    [destruct Hin |]. cbn [collect_check].
  destruct Hin as [<-|Hin].
  - apply Nat.ltb_lt in Hlt. rewrite Hlt, Hc. reflexivity.
  - assert (IH' : forall acc, snd (collect_check idx rest acc) = true)
      by (intro a; apply IH; exists l; auto).
    destruct (idx <? List.length (split_on ch_comma line))%nat; [| apply IH'].
    destruct (cell_year (nth idx (split_on ch_comma line) [])); try apply IH'.
    reflexivity.
Qed.

(** X14. [check_chart_for_map] keeps the id and slug it is given, reports
    distinct years, and its flags agree with its error: [has_map] holds
    exactly when there is no error and at least one year, and
    [single_year] exactly when there is no error and one year. *)
Theorem check_chart_for_map_flags (net_csv : str -> option str) (chart_id slug : str) :
  let r := check_chart_for_map net_csv chart_id slug in
  mc_id r = chart_id /\ mc_slug r = slug /\ NoDup (mc_years r)
  /\ (mc_has_map r = true <-> mc_error r = None /\ mc_years r <> [])
  /\ (mc_single_year r = true <-> mc_error r = None /\ List.length (mc_years r) = 1%nat).
Proof.
  cbv zeta. unfold check_chart_for_map.
  assert (Hf : forall e ys, NoDup ys ->
    mc_id {| mc_id := chart_id; mc_slug := slug; mc_has_map := false; mc_single_year := false;
             mc_years := ys; mc_error := Some e |} = chart_id
    /\ mc_slug {| mc_id := chart_id; mc_slug := slug; mc_has_map := false; mc_single_year := false;
             mc_years := ys; mc_error := Some e |} = slug
    /\ NoDup ys
    /\ (false = true <-> Some e = None /\ ys <> [])
    /\ (false = true <-> Some e = None /\ List.length ys = 1%nat)).
  { intros e ys Hn. repeat split; try assumption; try discriminate; intros [H _]; discriminate H. }
  destruct (net_csv slug) as [text|]; [| apply (Hf _ []); constructor].
  cbv zeta.
  destruct (List.length (split_on ch_nl (strip text)) <? 2)%nat; [apply (Hf _ []); constructor |].
  destruct (find_year_col_raw 0 (split_on ch_comma (hd [] (split_on ch_nl (strip text)))))
    as [idx|]; [| apply (Hf _ []); constructor].
  pose proof (collect_check_NoDup idx (tl (split_on ch_nl (strip text))) [] (NoDup_nil _)) as Hd.
  destruct (collect_check idx (tl (split_on ch_nl (strip text))) []) as [ys raised].
  cbn [fst] in Hd.
  destruct raised; [apply Hf, Hd |].
  cbn [mc_id mc_slug mc_years mc_has_map mc_single_year mc_error].
  split; [reflexivity |]. split; [reflexivity |]. split; [exact Hd |]. split.
  - split.
    + intro Hm. split; [reflexivity |]. intro Hy. subst ys. discriminate Hm.
    + intros [_ Hy]. apply Nat.ltb_lt. destruct ys as [|y ys]; [destruct Hy; reflexivity |].
      cbn [List.length]. lia.
  - split.
    + intro Hs. split; [reflexivity | apply Nat.eqb_eq, Hs].
    + intros [_ Hs]. apply Nat.eqb_eq, Hs.
Qed.

(** X15. A year cell that [float] reads as an infinity ([inf], or a
    literal beyond the double range such as [1e400]) makes
    [check_chart_for_map] report an error, and so no map, whatever years
    the other lines hold: [int] of an infinity raises an [OverflowError],
    which the inner [except (ValueError, IndexError)] does not catch. *)
Theorem check_chart_for_map_infinite_year (net_csv : str -> option str) (chart_id slug text : str)
  (idx : nat)
  (Ht : net_csv slug = Some text)
  (Hlen : (2 <= List.length (split_on ch_nl (strip text)))%nat)
  (Hidx : find_year_col_raw 0 (split_on ch_comma (hd [] (split_on ch_nl (strip text)))) = Some idx)
  (Hinf : exists line, In line (tl (split_on ch_nl (strip text)))
     /\ (idx < List.length (split_on ch_comma line))%nat
     /\ exists neg, py_float (nth idx (split_on ch_comma line) []) = Some (PInf neg)) :
  mc_error (check_chart_for_map net_csv chart_id slug) = Some ExceptionText
  /\ mc_has_map (check_chart_for_map net_csv chart_id slug) = false.
Proof.
  unfold check_chart_for_map. rewrite Ht. cbv zeta.
  assert (E : (List.length (split_on ch_nl (strip text)) <? 2)%nat = false)
    by (apply Nat.ltb_ge; exact Hlen).
  rewrite E, Hidx.
  assert (Hinf' : exists line, In line (tl (split_on ch_nl (strip text)))
     /\ (idx < List.length (split_on ch_comma line))%nat
     /\ cell_year (nth idx (split_on ch_comma line) []) = CRaise).
  { destruct Hinf as (line & Hin & Hlt & neg & Hf). exists line.
    split; [exact Hin | split; [exact Hlt |]]. unfold cell_year. rewrite Hf. reflexivity. }
  pose proof (collect_check_raise idx _ [] Hinf') as Hr.
  destruct (collect_check idx (tl (split_on ch_nl (strip text))) []) as [ys raised].
  cbn [snd] in Hr. subst raised. split; reflexivity.
Qed.

Definition csv_infinite_year : str :=
  lit "Entity,Code,Year,value
World,OWID_WRL,1990,1
World,OWID_WRL,1e400,2".

Lemma check_chart_for_map_infinite_year_witness :
  mc_error (check_chart_for_map (fun _ => Some csv_infinite_year) (lit "1") (lit "s"))
    = Some ExceptionText
  /\ mc_has_map (check_chart_for_map (fun _ => Some csv_infinite_year) (lit "1") (lit "s"))
    = false.
Proof.
  apply (check_chart_for_map_infinite_year (fun _ => Some csv_infinite_year) (lit "1") (lit "s")
           csv_infinite_year 2%nat eq_refl).
  - vm_compute. lia.
  - vm_compute. reflexivity.
  - exists (lit "World,OWID_WRL,1e400,2"). split; [vm_compute; right; left; reflexivity |].
    split; [vm_compute; lia |]. exists false. vm_compute. reflexivity.
Defined.

(** X16. [check_map_tab_via_html] never raises: a failed request gives
    [False]. Any page whose HTML contains the text [tab=map] anywhere, for
    instance in a link to another chart's map, gives [True]. *)
Theorem check_map_tab_via_html_cases (net_html : str -> option str) (slug : str) :
  (net_html (GRAPHER_BASE_URL ++ lit "/" ++ slug) = None ->
     check_map_tab_via_html net_html slug = false)
  /\ (forall html, net_html (GRAPHER_BASE_URL ++ lit "/" ++ slug) = Some html ->
       is_infix (lit "tab=map") html = true ->
       check_map_tab_via_html net_html slug = true).
Proof.
  unfold check_map_tab_via_html. split.
  - intro H. rewrite H. reflexivity.
  - intros html H Hi. rewrite H. apply existsb_exists.
    exists (lit "tab=map"). split; [| exact Hi].
    unfold html_indicators. right; right; right; right; right; left. reflexivity.
Qed.
